(** * lipi-swap: a shallow embedding of the hierarchical table scraper

    The repository holds two Python files, [lipi-swap.py] and
    [lipi-swap-refactored.py].  Both walk state -> district -> block pages,
    read the table with id [t1] on each page and flatten the panchayat rows
    of the block pages into one CSV file.

    The embedding follows the code: the navigable tree of BeautifulSoup is an
    inductive type with the searches the code calls, exceptions are an
    explicit outcome, and the effects of [main] (requests, pauses, console
    lines, the CSV file) are appended to a trace by a small state and error
    monad. *)

From Stdlib Require Import Ascii String.
From stdpp Require Import gmap strings list pretty.

Set Warnings "-register-all".

(** ** Python values *)

(** The exceptions that the modelled code can meet. *)
Inductive exn :=
| RequestException (msg : string)
| KeyError (key : string)
| IndexError.

(** A call either returns or raises. *)
Inductive outcome (A : Type) :=
| Done (a : A)
| Raised (e : exn).
Arguments Done {A} a.
Arguments Raised {A} e.

#[export] Instance outcome_ret : MRet outcome := fun _ a => Done a.
#[export] Instance outcome_bind : MBind outcome := fun _ _ k o =>
  match o with
  | Done a => k a
  | Raised e => Raised e
  end.

(** [l[i]] on a Python list: [IndexError] out of range. *)
Definition getitem {A} (l : list A) (i : nat) : outcome A :=
  match l !! i with
  | Some x => Done x
  | None => Raised IndexError
  end.

(** [l[a:b]] on a Python list, for [a <= b]: never raises, shorter when the
    list is. *)
Definition slice {A} (a b : nat) (l : list A) : list A :=
  take (b - a) (drop a l).

(** [for x in l: s = body(s, x)], an exception leaving the loop. *)
Fixpoint for_in {A S} (l : list A) (body : S -> A -> outcome S) (s : S)
  : outcome S :=
  match l with
  | [] => Done s
  | x :: l' =>
      match body s x with
      | Done s' => for_in l' body s'
      | Raised e => Raised e
      end
  end.

(** ** The navigable tree of BeautifulSoup

    A page element is a string or a tag; a tag has a name, a dictionary of
    attributes and its contents.  The parsed document is itself a tag. *)
Inductive node :=
| Text (s : string)
| Tag (name : string) (attrs : gmap string string) (contents : list node).

(** All elements below [n], in document order. *)
Fixpoint descendants (n : node) : list node :=
  match n with
  | Text _ => []
  | Tag _ _ cs =>
      (fix below (l : list node) : list node :=
         match l with
         | [] => []
         | c :: l' => c :: descendants c ++ below l'
         end) cs
  end.

Definition is_tag (name : string) (n : node) : bool :=
  match n with
  | Text _ => false
  | Tag nm _ _ => bool_decide (nm = name)
  end.

Definition has_attr (key value : string) (n : node) : bool :=
  match n with
  | Text _ => false
  | Tag _ attrs _ => bool_decide (attrs !! key = Some value)
  end.

(** [n.find_all(name)]: every tag of that name below [n], nested ones
    included. *)
Definition find_all (name : string) (n : node) : list node :=
  filter (fun d => is_tag name d) (descendants n).

(** [n.find(name)]: the first of them, [None] when there is none. *)
Definition find (name : string) (n : node) : option node :=
  head (find_all name n).

(** [n.find(name, id=value)]. *)
Definition find_by_id (name value : string) (n : node) : option node :=
  head (filter (fun d => has_attr "id" value d) (find_all name n)).

(** [n.text]: the strings below [n], concatenated. *)
Fixpoint get_text (n : node) : string :=
  match n with
  | Text s => s
  | Tag _ _ cs =>
      (fix strings (l : list node) : string :=
         match l with
         | [] => ""
         | c :: l' => get_text c +:+ strings l'
         end) cs
  end.

(** [tag[key]]: [KeyError] when the tag has no such attribute. *)
Definition tag_getitem (n : node) (key : string) : outcome string :=
  match n with
  | Text _ => Raised (KeyError key)
  | Tag _ attrs _ =>
      match attrs !! key with
      | Some v => Done v
      | None => Raised (KeyError key)
      end
  end.

(** ** urllib.parse

    [parse_qs] with the arguments the code leaves at their defaults
    ([keep_blank_values=False], [strict_parsing=False], separator [&]);
    percent-decoding is left to [unquote] of the library interface below. *)

(** [s.split(sep)] for a one-character separator. *)
Fixpoint split_char (sep : ascii) (s : string) : list string :=
  match s with
  | EmptyString => [""]
  | String c s' =>
      if bool_decide (c = sep) then "" :: split_char sep s'
      else match split_char sep s' with
           | [] => [String c ""]
           | w :: ws => String c w :: ws
           end
  end.

(** [s.split(sep, 1)] when [sep] occurs in [s]: the text before and after its
    first occurrence; [None] when it does not occur. *)
Fixpoint split_once (sep : ascii) (s : string) : option (string * string) :=
  match s with
  | EmptyString => None
  | String c s' =>
      if bool_decide (c = sep) then Some ("", s')
      else match split_once sep s' with
           | Some (a, b) => Some (String c a, b)
           | None => None
           end
  end.

(** [s.replace('+', ' ')]. *)
Fixpoint plus_to_space (s : string) : string :=
  match s with
  | EmptyString => EmptyString
  | String c s' =>
      String (if bool_decide (c = "+"%char) then " "%char else c)
             (plus_to_space s')
  end.

Definition is_empty_string (s : string) : bool :=
  match s with
  | EmptyString => true
  | String _ _ => false
  end.

(** ** Effects

    What a run does to the outside world, in the order it does it. *)
Inductive event :=
| EvRequest (url : string)
| EvSleep (seconds : nat)
| EvPrint (line : string)
| EvToCsv (path : string) (columns : list string) (rows : list (list string))
          (index : bool) (encoding : string).

(** A [requests] response: the error that [raise_for_status] raises, if the
    status is a bad one, and the decoded body. *)
Record Response := { http_error : option string; text : string }.

(** The libraries and the network, which the repository does not define.
    [requests_get] answers a URL given everything the run has done so far:
    an error message when [requests.get] itself raises, a response
    otherwise. *)
Class Libs := {
  unidecode : string -> string;
  strip : string -> string;
  urljoin : string -> string -> string;
  unquote : string -> string;
  urlparse_query : string -> string;
  requests_get : list event -> string -> string + Response;
  html_parser : string -> node
}.

(** Computations of [main] and [get_soup]: they extend the trace and return
    or raise. *)
Definition M (A : Type) : Type := list event -> outcome A * list event.

#[export] Instance M_ret : MRet M := fun _ a t => (Done a, t).
#[export] Instance M_bind : MBind M := fun _ _ k m t =>
  match m t with
  | (Done a, t') => k a t'
  | (Raised e, t') => (Raised e, t')
  end.

Definition emit (e : event) : M unit := fun t => (Done (), t ++ [e]).
Definition raise {A} (e : exn) : M A := fun t => (Raised e, t).
Definition lift {A} (o : outcome A) : M A := fun t => (o, t).

(** [try: body except e: handler(e)]. *)
Definition try_except {A} (body : M A) (handler : exn -> M A) : M A :=
  fun t =>
    match body t with
    | (Done a, t') => (Done a, t')
    | (Raised e, t') => handler e t'
    end.

(** [for x in l: s = body(s, x)] with effects. *)
Fixpoint for_each {A S} (l : list A) (body : S -> A -> M S) (s : S) : M S :=
  match l with
  | [] => mret s
  | x :: l' => s' ← body s x; for_each l' body s'
  end.

Definition print (line : string) : M unit := emit (EvPrint line).
Definition time_sleep (seconds : nat) : M unit := emit (EvSleep seconds).

(** [response.raise_for_status()]. *)
Definition raise_for_status (r : Response) : M unit :=
  match http_error r with
  | Some msg => raise (RequestException msg)
  | None => mret ()
  end.

(** ** Leaf records and the data frame

    A leaf record is the dictionary literal of [scrape_table_data]: its keys
    in insertion order, which is what fixes the columns of the data frame. *)
Definition record : Type := list (string * string).

Fixpoint dict_get (key : string) (r : record) : option string :=
  match r with
  | [] => None
  | (k, v) :: r' => if bool_decide (k = key) then Some v else dict_get key r'
  end.

Record DataFrame := { columns : list string; values : list (list string) }.

Definition add_new (acc : list string) (k : string) : list string :=
  if bool_decide (k ∈ acc) then acc else acc ++ [k].

(** [pd.DataFrame(list_of_dicts)]: the columns are the keys in the order of
    their first appearance, a key that a dictionary lacks gives an empty
    cell. *)
Definition pd_DataFrame (data : list record) : DataFrame :=
  let cols := foldl add_new [] (concat (map (map fst) data)) in
  {| columns := cols;
     values := map (fun r => map (fun c => default "" (dict_get c r)) cols)
                   data |}.

(** [df.to_csv(path, index=False, encoding=...)]: a header row with the
    columns, then one row per row of the frame. *)
Definition to_csv (df : DataFrame) (path : string) (index : bool)
    (encoding : string) : M unit :=
  emit (EvToCsv path (columns df) (values df) index encoding).

(** What the network can depend on: the run so far without its console
    lines. *)
Definition is_print (e : event) : bool :=
  match e with
  | EvPrint _ => true
  | _ => false
  end.

Definition quiet (t : list event) : list event :=
  filter (fun e => ¬ is_print e) t.

Section Library.
Context {L : Libs}.

(** [requests.get(url)]: the request is made, then the network answers. *)
Definition requests_get_call (url : string) : M Response :=
  fun t =>
    match requests_get (quiet t) url with
    | inl msg => (Raised (RequestException msg), t ++ [EvRequest url])
    | inr r => (Done r, t ++ [EvRequest url])
    end.

(** [parse_qsl(qs)]: fields without [=] and fields with a blank value are
    dropped. *)
Definition parse_qsl (qs : string) : list (string * string) :=
  foldr (fun name_value r =>
           if is_empty_string name_value then r
           else match split_once "="%char name_value with
                | None => r
                | Some (n, v) =>
                    if is_empty_string v then r
                    else (unquote (plus_to_space n),
                          unquote (plus_to_space v)) :: r
                end)
        [] (split_char "&"%char qs).

(** [parse_qs(qs)]: the values of each name, in order. *)
Definition parse_qs (qs : string) : gmap string (list string) :=
  foldl (fun (d : gmap string (list string)) '(name, value) =>
           match d !! name with
           | Some vs => <[name := vs ++ [value]]> d
           | None => <[name := [value]]> d
           end)
        ∅ (parse_qsl qs).

(** [d.get(key, default)]. *)
Definition dict_get_default (d : gmap string (list string)) (key : string)
    (dflt : list string) : list string :=
  match d !! key with
  | Some v => v
  | None => dflt
  end.
End Library.

(** ** lipi-swap.py *)
Module LipiSwap.
Section Code.
Context {L : Libs}.

Definition base_url : string := "put/your/base/url/here".

Definition get_soup (url : string) : M (option node) :=
  try_except
    (response ← requests_get_call url;
     raise_for_status response;;
     time_sleep 1;;
     mret (Some (html_parser (text response))))
    (fun e =>
       match e with
       | RequestException msg =>
           print ("Error fetching " +:+ url +:+ ": " +:+ msg);;
           mret None
       | _ => raise e
       end).

Definition extract_links (soup : option node)
  : outcome (list (string * string)) :=
  match soup with
  | None => Done []
  | Some doc =>
      match find_by_id "table" "t1" doc with
      | None => Done []
      | Some table =>
          let rows := drop 4 (find_all "tr" table) in
          for_in rows
            (fun links row =>
               let cells := find_all "td" row in
               if bool_decide (2 ≤ length cells) then
                 cell ← getitem cells 1;
                 match find "a" cell with
                 | Some link_tag =>
                     let name := unidecode (strip (get_text link_tag)) in
                     href ← tag_getitem link_tag "href";
                     let full_url := urljoin base_url href in
                     Done (links ++ [(name, full_url)])
                 | None => Done links
                 end
               else Done links)
            []
      end
  end.

Definition scrape_table_data (soup : option node)
    (state state_id fy district block : string) : outcome (list record) :=
  match soup with
  | None => Done []
  | Some doc =>
      match find_by_id "table" "t1" doc with
      | None => Done []
      | Some table =>
          let rows := drop 4 (find_all "tr" table) in
          for_in rows
            (fun data row =>
               let cells := find_all "td" row in
               if bool_decide (14 ≤ length cells) then
                 cell ← getitem cells 1;
                 let panchayat := unidecode (strip (get_text cell)) in
                 let monthly_data :=
                   map (fun cell => strip (get_text cell))
                       (slice 2 14 cells) in
                 m0 ← getitem monthly_data 0;
                 m1 ← getitem monthly_data 1;
                 m2 ← getitem monthly_data 2;
                 m3 ← getitem monthly_data 3;
                 m4 ← getitem monthly_data 4;
                 m5 ← getitem monthly_data 5;
                 m6 ← getitem monthly_data 6;
                 m7 ← getitem monthly_data 7;
                 m8 ← getitem monthly_data 8;
                 m9 ← getitem monthly_data 9;
                 m10 ← getitem monthly_data 10;
                 m11 ← getitem monthly_data 11;
                 Done (data ++ [[
                   ("State", state);
                   ("State ID", state_id);
                   ("FY", fy);
                   ("District", district);
                   ("Block", block);
                   ("Panchayat", panchayat);
                   ("April", m0);
                   ("May", m1);
                   ("June", m2);
                   ("July", m3);
                   ("August", m4);
                   ("September", m5);
                   ("October", m6);
                   ("November", m7);
                   ("December", m8);
                   ("January", m9);
                   ("February", m10);
                   ("March", m11)]])
               else Done data)
            []
      end
  end.

(** The body of [for block_name, block_url in block_links]. *)
Definition block_body (state state_id fy district_name : string)
    (all_data : list record) (link : string * string) : M (list record) :=
  let '(block_name, block_url) := link in
  print ("Processing block: " +:+ block_name +:+ " in " +:+ district_name
         +:+ ", " +:+ state);;
  block_soup ← get_soup block_url;
  match block_soup with
  | None =>
      print ("Skipping " +:+ block_name +:+ " due to fetch error.");;
      mret all_data
  | Some _ =>
      panchayat_data ← lift (scrape_table_data block_soup state state_id fy
                               district_name block_name);
      let all_data := all_data ++ panchayat_data in
      print ("Collected data for " +:+ pretty (length panchayat_data)
             +:+ " panchayats in " +:+ block_name +:+ ".");;
      mret all_data
  end.

(** The body of [for district_name, district_url in district_links]. *)
Definition district_body (state state_id fy : string)
    (all_data : list record) (link : string * string) : M (list record) :=
  let '(district_name, district_url) := link in
  print ("Processing district: " +:+ district_name +:+ " in " +:+ state);;
  district_soup ← get_soup district_url;
  match district_soup with
  | None =>
      print ("Skipping " +:+ district_name +:+ " due to fetch error.");;
      mret all_data
  | Some _ =>
      block_links ← lift (extract_links district_soup);
      print ("Found " +:+ pretty (length block_links) +:+ " blocks in "
             +:+ district_name +:+ ".");;
      for_each block_links (block_body state state_id fy district_name)
               all_data
  end.

(** The first lines of the body of [for state_url in state_urls]: the
    crawl context read from the query string of the URL. *)
Definition state_context (state_url : string)
  : outcome (string * string * string) :=
  let parsed_query := urlparse_query state_url in
  let query_params := parse_qs parsed_query in
  state ← getitem (dict_get_default query_params "state_name" ["Unknown"])
                  0;
  state_id ← getitem
               (dict_get_default query_params "state_code" ["Unknown"]) 0;
  fy ← getitem (dict_get_default query_params "fin_year" ["Unknown"]) 0;
  Done (state, state_id, fy).

(** The body of [for state_url in state_urls]. *)
Definition state_body (all_data : list record) (state_url : string)
  : M (list record) :=
  '(state, state_id, fy) ← lift (state_context state_url);
  print ("Processing state: " +:+ state);;
  state_soup ← get_soup state_url;
  match state_soup with
  | None =>
      print ("Failed to fetch state page for " +:+ state +:+ ". Skipping.");;
      mret all_data
  | Some _ =>
      district_links ← lift (extract_links state_soup);
      print ("Found " +:+ pretty (length district_links) +:+ " districts in "
             +:+ state +:+ ".");;
      for_each district_links (district_body state state_id fy) all_data
  end.

(** [main], with the module-level list [state_urls] as its argument: the
    file leaves that list empty for its user to fill in. *)
Definition main (state_urls : list string) : M unit :=
  all_data ← for_each state_urls state_body [];
  match all_data with
  | _ :: _ =>
      let df := pd_DataFrame all_data in
      let output_file := "put/yourr/output/path/here.csv" in
      to_csv df output_file false "utf-8";;
      print ("Data saved to " +:+ output_file +:+ " with "
             +:+ pretty (length (values df)) +:+ " rows.")
  | [] => print "No data collected."
  end.
End Code.
End LipiSwap.

(** ** lipi-swap-refactored.py *)
Module LipiSwapRefactored.
Section Code.
Context {L : Libs}.

Definition BASE_URL_PATH : string := "put/your/base/url/here".

(** [if verbose: m]. *)
Definition when (verbose : bool) (m : M unit) : M unit :=
  if verbose then m else mret ().

Definition get_soup (url : string) (verbose : bool) : M (option node) :=
  try_except
    (response ← requests_get_call url;
     raise_for_status response;;
     time_sleep 1;;
     mret (Some (html_parser (text response))))
    (fun e =>
       match e with
       | RequestException msg =>
           when verbose
                (print ("Error fetching " +:+ url +:+ ": " +:+ msg));;
           mret None
       | _ => raise e
       end).

Definition extract_links (soup : option node)
  : outcome (list (string * string)) :=
  match soup with
  | None => Done []
  | Some doc =>
      match find_by_id "table" "t1" doc with
      | None => Done []
      | Some table =>
          let rows := drop 4 (find_all "tr" table) in
          for_in rows
            (fun link_list row =>
               let cells := find_all "td" row in
               if bool_decide (2 ≤ length cells) then
                 cell ← getitem cells 1;
                 match find "a" cell with
                 | Some link_tag =>
                     let name := unidecode (strip (get_text link_tag)) in
                     href ← tag_getitem link_tag "href";
                     let full_url := urljoin BASE_URL_PATH href in
                     Done (link_list ++ [(name, full_url)])
                 | None => Done link_list
                 end
               else Done link_list)
            []
      end
  end.

Definition scrape_table_data (soup : option node)
    (state state_id fy district block : string) : outcome (list record) :=
  match soup with
  | None => Done []
  | Some doc =>
      match find_by_id "table" "t1" doc with
      | None => Done []
      | Some table =>
          let rows := drop 4 (find_all "tr" table) in
          for_in rows
            (fun data_list row =>
               let cells := find_all "td" row in
               if bool_decide (14 ≤ length cells) then
                 cell ← getitem cells 1;
                 let panchayat := unidecode (strip (get_text cell)) in
                 let monthly_data_list :=
                   map (fun cell => strip (get_text cell))
                       (slice 2 14 cells) in
                 m0 ← getitem monthly_data_list 0;
                 m1 ← getitem monthly_data_list 1;
                 m2 ← getitem monthly_data_list 2;
                 m3 ← getitem monthly_data_list 3;
                 m4 ← getitem monthly_data_list 4;
                 m5 ← getitem monthly_data_list 5;
                 m6 ← getitem monthly_data_list 6;
                 m7 ← getitem monthly_data_list 7;
                 m8 ← getitem monthly_data_list 8;
                 m9 ← getitem monthly_data_list 9;
                 m10 ← getitem monthly_data_list 10;
                 m11 ← getitem monthly_data_list 11;
                 Done (data_list ++ [[
                   ("State", state);
                   ("State ID", state_id);
                   ("FY", fy);
                   ("District", district);
                   ("Block", block);
                   ("Panchayat", panchayat);
                   ("April", m0);
                   ("May", m1);
                   ("June", m2);
                   ("July", m3);
                   ("August", m4);
                   ("September", m5);
                   ("October", m6);
                   ("November", m7);
                   ("December", m8);
                   ("January", m9);
                   ("February", m10);
                   ("March", m11)]])
               else Done data_list)
            []
      end
  end.

Definition block_body (verbose : bool) (state state_id fy district_name : string)
    (all_data_list : list record) (link : string * string)
  : M (list record) :=
  let '(block_name, block_url) := link in
  when verbose
       (print ("Processing block: " +:+ block_name +:+ " in "
               +:+ district_name +:+ ", " +:+ state));;
  block_soup ← get_soup block_url verbose;
  match block_soup with
  | None =>
      when verbose
           (print ("Skipping " +:+ block_name +:+ " due to fetch error."));;
      mret all_data_list
  | Some _ =>
      panchayat_data_list ←
        lift (scrape_table_data block_soup state state_id fy district_name
                block_name);
      let all_data_list := all_data_list ++ panchayat_data_list in
      when verbose
           (print ("Collected data for "
                   +:+ pretty (length panchayat_data_list)
                   +:+ " panchayats in " +:+ block_name +:+ "."));;
      mret all_data_list
  end.

Definition district_body (verbose : bool) (state state_id fy : string)
    (all_data_list : list record) (link : string * string)
  : M (list record) :=
  let '(district_name, district_url) := link in
  when verbose
       (print ("Processing district: " +:+ district_name +:+ " in "
               +:+ state));;
  district_soup ← get_soup district_url verbose;
  match district_soup with
  | None =>
      when verbose
           (print ("Skipping " +:+ district_name
                   +:+ " due to fetch error."));;
      mret all_data_list
  | Some _ =>
      block_link_list ← lift (extract_links district_soup);
      when verbose
           (print ("Found " +:+ pretty (length block_link_list)
                   +:+ " blocks in " +:+ district_name +:+ "."));;
      for_each block_link_list
               (block_body verbose state state_id fy district_name)
               all_data_list
  end.

Definition state_context (state_url : string)
  : outcome (string * string * string) :=
  let parsed_url_query := urlparse_query state_url in
  let query_params := parse_qs parsed_url_query in
  state ← getitem (dict_get_default query_params "state_name" ["Unknown"])
                  0;
  state_id ← getitem
               (dict_get_default query_params "state_code" ["Unknown"]) 0;
  fy ← getitem (dict_get_default query_params "fin_year" ["Unknown"]) 0;
  Done (state, state_id, fy).

Definition state_body (verbose : bool) (all_data_list : list record)
    (state_url : string) : M (list record) :=
  '(state, state_id, fy) ← lift (state_context state_url);
  when verbose (print ("Processing state: " +:+ state));;
  state_soup ← get_soup state_url verbose;
  match state_soup with
  | None =>
      when verbose
           (print ("Failed to fetch state page for " +:+ state
                   +:+ ". Skipping."));;
      mret all_data_list
  | Some _ =>
      district_link_list ← lift (extract_links state_soup);
      when verbose
           (print ("Found " +:+ pretty (length district_link_list)
                   +:+ " districts in " +:+ state +:+ "."));;
      for_each district_link_list (district_body verbose state state_id fy)
               all_data_list
  end.

(** [main(verbose)], with the module-level list [state_url_list] as its
    argument. *)
Definition main (state_url_list : list string) (verbose : bool) : M unit :=
  all_data_list ← for_each state_url_list (state_body verbose) [];
  match all_data_list with
  | _ :: _ =>
      let df_panchayat := pd_DataFrame all_data_list in
      let output_path := "put/your/output/path/here.csv" in
      to_csv df_panchayat output_path false "utf-8";;
      when verbose
           (print ("Data saved to " +:+ output_path +:+ " with "
                   +:+ pretty (length (values df_panchayat)) +:+ " rows."))
  | [] => when verbose (print "No data collected.")
  end.
End Code.
End LipiSwapRefactored.

(** ** What the extractors are expected to return

    The vocabulary of the statements below: the rows after the four header
    rows of the table [t1], the hyperlink a row offers, the record a row
    gives. *)

(** The post-header rows of the designated table; none when the page has no
    such table. *)
Definition data_rows (doc : node) : list node :=
  match find_by_id "table" "t1" doc with
  | Some table => drop 4 (find_all "tr" table)
  | None => []
  end.

(** The hyperlink found in the second cell of a row with at least two
    cells. *)
Definition row_link (row : node) : option node :=
  let cells := find_all "td" row in
  if bool_decide (2 ≤ length cells) then cells !! 1 ≫= find "a" else None.

Definition tag_attr (n : node) (key : string) : option string :=
  match n with
  | Text _ => None
  | Tag _ attrs _ => attrs !! key
  end.

(** Every hyperlink that [extract_links] reads carries an [href]. *)
Definition links_have_href (doc : node) : bool :=
  forallb (fun row =>
             match row_link row with
             | Some a => bool_decide (is_Some (tag_attr a "href"))
             | None => true
             end)
          (data_rows doc).

Definition month_names : list string :=
  ["April"; "May"; "June"; "July"; "August"; "September"; "October";
   "November"; "December"; "January"; "February"; "March"].

Definition csv_columns : list string :=
  ["State"; "State ID"; "FY"; "District"; "Block"; "Panchayat"]
  ++ month_names.

Section Expected.
Context {L : Libs}.

(** The pair a hyperlink gives: its transliterated, trimmed text and its
    [href] against the base URL. *)
Definition link_pair (base : string) (a : node) : option (string * string) :=
  href ← tag_attr a "href";
  Some (unidecode (strip (get_text a)), urljoin base href).

(** The record of a row with the cells [cells], under the given ancestor
    context: the second cell names the panchayat, cells 3 to 14 are the
    months from April to March. *)
Definition leaf_record (state state_id fy district block : string)
    (cells : list node) : record :=
  [("State", state); ("State ID", state_id); ("FY", fy);
   ("District", district); ("Block", block);
   ("Panchayat",
    unidecode (strip (get_text (default (Text "") (cells !! 1)))))]
  ++ zip month_names
         (map (fun c => strip (get_text c)) (take 12 (drop 2 cells))).

(** Why a fetch fails, if it does: [requests.get] raised, or the status
    was a bad one. *)
Definition fetch_failure (answer : string + Response) : option string :=
  match answer with
  | inl msg => Some msg
  | inr r => http_error r
  end.

(** A query field [name=value] (or a bare [name]) as written in the URL:
    its decoded name and its raw value. *)
Definition query_field (name_value : string) : string * string :=
  match split_once "="%char name_value with
  | Some (n, v) => (unquote (plus_to_space n), v)
  | None => (unquote (plus_to_space name_value), "")
  end.

(** The raw values that the query string gives to the parameter [key], in
    the order of the URL. *)
Definition parameter_values (key qs : string) : list string :=
  map snd
      (filter (fun f => f.1 = key)
              (map query_field
                   (filter (fun nv => ¬ is_empty_string nv)
                           (split_char "&"%char qs)))).

(** The value the crawl context takes for the parameter [key]: the decoded
    first non-blank value, the placeholder when there is none. *)
Definition param_or_unknown (key qs : string) : string :=
  match filter (fun v => ¬ is_empty_string v) (parameter_values key qs) with
  | v :: _ => unquote (plus_to_space v)
  | [] => "Unknown"
  end.

(** The document that a successful answer parses into. *)
Definition page_of (answer : string + Response) : node :=
  match answer with
  | inl _ => Text ""
  | inr r => html_parser (text r)
  end.

(** The console line of a failed fetch. *)
Definition fetch_error_line (url msg : string) : string :=
  "Error fetching " +:+ url +:+ ": " +:+ msg.
End Expected.

(** ** The rows a crawl reaches

    A crawl path is a state URL, a district link and a block link.  The
    functions below explore the site as [main] does and return the rows
    they reach on the block pages, each with the path that led to it; they
    build no record. *)

(** Visit the elements in order and concatenate what the visits return. *)
Fixpoint collect {A B} (l : list A) (visit : A -> M (list B)) : M (list B) :=
  match l with
  | [] => mret []
  | x :: l' => r ← visit x; rs ← collect l' visit; mret (r ++ rs)
  end.

Definition path : Type := string * (string * string) * (string * string).

Section Reached.
Context {L : Libs}.

Definition state_of (state_url : string) : string :=
  param_or_unknown "state_name" (urlparse_query state_url).
Definition state_id_of (state_url : string) : string :=
  param_or_unknown "state_code" (urlparse_query state_url).
Definition fy_of (state_url : string) : string :=
  param_or_unknown "fin_year" (urlparse_query state_url).

(** The record of a reached row: the context of its own path, and its
    cells. *)
Definition record_of_reached (reached : path * node) : record :=
  let '((state_url, district, block), row) := reached in
  leaf_record (state_of state_url) (state_id_of state_url) (fy_of state_url)
              district.1 block.1 (find_all "td" row).

(** The rows with at least 14 cells of the block page behind a block
    link. *)
Definition block_rows (state_url : string) (district block : string * string)
  : M (list (path * node)) :=
  print ("Processing block: " +:+ block.1 +:+ " in " +:+ district.1
         +:+ ", " +:+ state_of state_url);;
  block_soup ← LipiSwap.get_soup block.2;
  match block_soup with
  | None =>
      print ("Skipping " +:+ block.1 +:+ " due to fetch error.");;
      mret []
  | Some doc =>
      let rows := filter (fun row => 14 ≤ length (find_all "td" row))
                         (data_rows doc) in
      print ("Collected data for " +:+ pretty (length rows)
             +:+ " panchayats in " +:+ block.1 +:+ ".");;
      mret (map (fun row => ((state_url, district, block), row)) rows)
  end.

(** The rows behind a district link: those of its block links, in the
    order in which [extract_links] returns them. *)
Definition district_rows (state_url : string) (district : string * string)
  : M (list (path * node)) :=
  print ("Processing district: " +:+ district.1 +:+ " in "
         +:+ state_of state_url);;
  district_soup ← LipiSwap.get_soup district.2;
  match district_soup with
  | None =>
      print ("Skipping " +:+ district.1 +:+ " due to fetch error.");;
      mret []
  | Some _ =>
      block_links ← lift (LipiSwap.extract_links district_soup);
      print ("Found " +:+ pretty (length block_links) +:+ " blocks in "
             +:+ district.1 +:+ ".");;
      collect block_links (block_rows state_url district)
  end.

(** The rows behind a state URL: those of its district links, in order. *)
Definition state_rows (state_url : string) : M (list (path * node)) :=
  print ("Processing state: " +:+ state_of state_url);;
  state_soup ← LipiSwap.get_soup state_url;
  match state_soup with
  | None =>
      print ("Failed to fetch state page for " +:+ state_of state_url
             +:+ ". Skipping.");;
      mret []
  | Some _ =>
      district_links ← lift (LipiSwap.extract_links state_soup);
      print ("Found " +:+ pretty (length district_links)
             +:+ " districts in " +:+ state_of state_url +:+ ".");;
      collect district_links (district_rows state_url)
  end.

(** The rows of a whole run, in the order of the state list. *)
Definition rows_reached (state_urls : list string) : M (list (path * node)) :=
  collect state_urls state_rows.
End Reached.

(** ** Reasoning about runs *)

Definition is_to_csv (e : event) : bool :=
  match e with
  | EvToCsv _ _ _ _ _ => true
  | _ => false
  end.

(** A record with exactly the eighteen columns, in order. *)
Definition full_record (r : record) : Prop := map fst r = csv_columns.

(** The computation only adds events to the trace, none of them a file
    write, and what it returns satisfies [P]. *)
Definition run_ok {A} (m : M A) (P : A -> Prop) : Prop :=
  ∀ t, ∃ added,
    (m t).2 = t ++ added
    ∧ Forall (fun e => ¬ is_to_csv e) added
    ∧ ∀ a, (m t).1 = Done a → P a.

(** The computation returns, whatever the trace, and what it returns
    satisfies [P]. *)
Definition returns {A} (m : M A) (P : A -> Prop) : Prop :=
  ∀ t, ∃ a t', m t = (Done a, t') ∧ P a.

(** Every page that the network serves carries an [href] on the hyperlinks
    that [extract_links] reads. *)
Definition links_served {L : Libs} : Prop :=
  ∀ t url r,
    requests_get t url = inr r → http_error r = None →
    links_have_href (html_parser (text r)) = true.

(** Two computations that agree but for their console lines: from traces
    that the network cannot tell apart they return the same and reach
    traces that the network cannot tell apart. *)
Definition sim {A} (m1 m2 : M A) : Prop :=
  ∀ t1 t2, quiet t1 = quiet t2 →
    (m1 t1).1 = (m2 t2).1 ∧ quiet (m1 t1).2 = quiet (m2 t2).2.

(** The event without the path of the file it writes. *)
Definition forget_path (e : event) : event :=
  match e with
  | EvToCsv _ cols rows index enc => EvToCsv "" cols rows index enc
  | _ => e
  end.

(** The events that a computation adds to the trace satisfy [Tr]; it
    returns a value that satisfies [P] or raises an exception that
    satisfies [E]. *)
Definition run_spec {A} (Tr : list event -> Prop) (P : A -> Prop)
    (E : exn -> Prop) (m : M A) : Prop :=
  ∀ t, ∃ added,
    (m t).2 = t ++ added
    ∧ Tr added
    ∧ match (m t).1 with
      | Done a => P a
      | Raised e => E e
      end.

(** The requests and pauses of a trace, in order. *)
Definition is_network (e : event) : bool :=
  match e with
  | EvRequest _ | EvSleep _ => true
  | _ => false
  end.

Definition network (t : list event) : list event :=
  filter (fun e => is_network e) t.

(** The URLs that a trace requests, in order. *)
Definition requested (t : list event) : list string :=
  omap (fun e => match e with
                 | EvRequest url => Some url
                 | _ => None
                 end) t.

(** Requests and pauses in step: a sequence of requests, each followed by
    at most one pause, of one second; no pause comes first or follows
    another pause. *)
Fixpoint paced (t : list event) : bool :=
  match t with
  | [] => true
  | EvRequest _ :: t' =>
      match t' with
      | EvSleep 1 :: t'' => paced t''
      | _ => paced t'
      end
  | _ => false
  end.

(** The one exception that the loops of [main] can raise. *)
Definition only_href (e : exn) : Prop := e = KeyError "href".

(** What [main] does after its loops, given the collection: the file and
    the console line, the latter only when [verbose]. *)
Definition finish (verbose : bool) (path : string) (all_data : list record)
  : list event :=
  match all_data with
  | [] => if verbose then [EvPrint "No data collected."] else []
  | _ :: _ =>
      EvToCsv path (columns (pd_DataFrame all_data))
              (values (pd_DataFrame all_data)) false "utf-8"
      :: (if verbose
          then [EvPrint ("Data saved to " +:+ path +:+ " with "
                         +:+ pretty (length (values (pd_DataFrame all_data)))
                         +:+ " rows.")]
          else [])
  end.

(** ** A small web to run the code on

    A concrete instance of the library interface and a few pages in the
    layout the scraper expects; the statements below are evaluated on
    them. *)
Module Samples.
Definition td (s : string) : node := Tag "td" ∅ [Text s].
Definition td_link (href : option string) (s : string) : node :=
  Tag "td" ∅
      [Tag "a" (match href with
                | Some h => {["href" := h]}
                | None => ∅
                end)
           [Text s]].
Definition tr (cells : list node) : node := Tag "tr" ∅ cells.
Definition header : list node := [tr []; tr []; tr []; tr []].
Definition page (rows : list node) : node :=
  Tag "[document]" ∅ [Tag "table" {["id" := "t1"]} (header ++ rows)].

(** A page without the designated table. *)
Definition plain_page : node :=
  Tag "[document]" ∅ [Tag "table" {["id" := "t2"]} header; Text "hello"].

(** Two linked rows around a row that is too short. *)
Definition links_page : node :=
  page [tr [td "1"; td_link (Some "/d1") "D1"]; tr [td "x"];
        tr [td "2"; td_link (Some "/d2") "D2"]].

(** The same, the last anchor lacking its [href]. *)
Definition anchor_page : node :=
  page [tr [td "1"; td_link (Some "/d1") "D1"]; tr [td "x"];
        tr [td "2"; td_link None "D2"]].

(** One data row of fourteen cells and one of thirteen. *)
Definition block_page : node :=
  page [tr (map td ["1"; "P"; "100"; "110"; "120"; "130"; "140"; "150";
                    "160"; "170"; "180"; "190"; "200"; "210"]);
        tr (map td ["2"; "Q"; "1"; "2"; "3"; "4"; "5"; "6"; "7"; "8"; "9";
                    "10"; "11"])].

(** The text after the first [?]. *)
Definition query_of (url : string) : string :=
  match split_once "?"%char url with
  | Some (_, q) => q
  | None => ""
  end.

Definition site (url : string) : string + Response :=
  if bool_decide (url = "http://s/?state_name=S&state_code=09&fin_year=2023-24")
  then inr {| http_error := None; text := "state" |}
  else if bool_decide (url = "/d1")
  then inr {| http_error := None; text := "district" |}
  else if bool_decide (url = "/d2")
  then inr {| http_error := Some "404 Client Error"; text := "" |}
  else if bool_decide (url = "/b1")
  then inr {| http_error := None; text := "block" |}
  else inl "connection refused".

Definition parse (body : string) : node :=
  if bool_decide (body = "state") then links_page
  else if bool_decide (body = "district")
  then page [tr [td "1"; td_link (Some "/b1") "B1"];
             tr [td "2"; td_link (Some "/b2") "B2"]]
  else if bool_decide (body = "block") then block_page
  else plain_page.

(** Identity transliteration and trimming, links taken as they are, a
    network that answers from [site] whatever happened before. *)
Definition libs : Libs :=
  {| unidecode := id;
     strip := id;
     urljoin := fun _ href => href;
     unquote := id;
     urlparse_query := query_of;
     requests_get := fun _ url => site url;
     html_parser := parse |}.

Definition state_url : string :=
  "http://s/?state_name=S&state_code=09&fin_year=2023-24".

(** The loops of [main] of lipi-swap.py on this web, from the empty
    trace: the collection and the trace they end with. *)
Definition crawl_data : list record :=
  Eval vm_compute in
    match (for_each [state_url] (LipiSwap.state_body (L := libs)) [] []).1 with
    | Done data => data
    | Raised _ => []
    end.
Definition crawl_trace : list event :=
  Eval vm_compute in
    (for_each [state_url] (LipiSwap.state_body (L := libs)) [] []).2.

(** The same web with one more state, whose page is [anchor_page]. *)
Definition anchor_url : string := "http://a/?state_name=A".
Definition libs_with_anchor : Libs :=
  {| unidecode := id;
     strip := id;
     urljoin := fun _ href => href;
     unquote := id;
     urlparse_query := query_of;
     requests_get := fun _ url =>
       if bool_decide (url = anchor_url)
       then inr {| http_error := None; text := "anchors" |}
       else site url;
     html_parser := fun body =>
       if bool_decide (body = "anchors") then anchor_page else parse body |}.

(** The same libraries with the network down. *)
Definition libs_offline : Libs :=
  {| unidecode := id;
     strip := id;
     urljoin := fun _ href => href;
     unquote := id;
     urlparse_query := query_of;
     requests_get := fun _ _ => inl "network is unreachable";
     html_parser := parse |}.

(** A page whose table has only the four header rows, one of them with a
    hyperlink that lacks its [href] and one with fourteen cells. *)
Definition header_only_table : node :=
  Tag "table" {["id" := "t1"]}
      [tr [td "0"; td_link None "H"];
       tr (map td ["1"; "P"; "100"; "110"; "120"; "130"; "140"; "150";
                   "160"; "170"; "180"; "190"; "200"; "210"]);
       tr []; tr []].
Definition header_only_page : node :=
  Tag "[document]" ∅ [header_only_table].
End Samples.

(** * Properties *)

(** ** Loops that collect *)

Lemma for_in_omap {A B} (g : A → option B)
    (body : list B → A → outcome (list B)) (l : list A) (acc : list B) :
  (∀ acc x, x ∈ l → body acc x = Done (acc ++ option_list (g x))) →
  for_in l body acc = Done (acc ++ omap g l).
Proof.
  revert acc. induction l as [|x l IH]; intros acc Hbody; simpl.
  - by rewrite app_nil_r.
  - rewrite Hbody by left.
    rewrite IH by (intros; apply Hbody; by right).
    f_equal. rewrite <- app_assoc. f_equal.
    by destruct (g x).
Qed.

Lemma omap_filter_map {A B} (P : A → Prop) `{!∀ x, Decision (P x)}
    (f : A → B) (l : list A) :
  omap (fun x => if decide (P x) then Some (f x) else None) l
  = map f (filter P l).
Proof.
  induction l as [|x l IH]; [done|].
  rewrite filter_cons. csimpl.
  destruct (decide (P x)); simpl; by rewrite <- IH.
Qed.

(** ** The extractors of lipi-swap.py *)
Section Extractors.
Context {L : Libs}.

(** One turn of the loop of [scrape_table_data]. *)
Lemma scrape_row (state state_id fy district block : string)
    (cells : list node) (data : list record) :
  (if bool_decide (14 ≤ length cells) then
     cell ← getitem cells 1;
     let panchayat := unidecode (strip (get_text cell)) in
     let monthly_data :=
       map (fun cell => strip (get_text cell)) (slice 2 14 cells) in
     m0 ← getitem monthly_data 0;
     m1 ← getitem monthly_data 1;
     m2 ← getitem monthly_data 2;
     m3 ← getitem monthly_data 3;
     m4 ← getitem monthly_data 4;
     m5 ← getitem monthly_data 5;
     m6 ← getitem monthly_data 6;
     m7 ← getitem monthly_data 7;
     m8 ← getitem monthly_data 8;
     m9 ← getitem monthly_data 9;
     m10 ← getitem monthly_data 10;
     m11 ← getitem monthly_data 11;
     Done (data ++ [[
       ("State", state); ("State ID", state_id); ("FY", fy);
       ("District", district); ("Block", block); ("Panchayat", panchayat);
       ("April", m0); ("May", m1); ("June", m2); ("July", m3);
       ("August", m4); ("September", m5); ("October", m6);
       ("November", m7); ("December", m8); ("January", m9);
       ("February", m10); ("March", m11)]])
   else Done data)
  = Done (data ++ option_list
            (if decide (14 ≤ length cells)
             then Some (leaf_record state state_id fy district block cells)
             else None)).
Proof.
  destruct (decide (14 ≤ length cells)) as [Hlen|Hlen].
  - rewrite bool_decide_eq_true_2 by done.
    do 14 (destruct cells as [|? cells]; [simpl in Hlen; lia|]).
    reflexivity.
  - rewrite bool_decide_eq_false_2 by done.
    unfold option_list. by rewrite app_nil_r.
Qed.

(** [scrape_table_data] of lipi-swap.py on a parsed page. *)
Lemma scrape_table_data_page (doc : node)
    (state state_id fy district block : string) :
  LipiSwap.scrape_table_data (Some doc) state state_id fy district block
  = Done (map (fun row =>
                 leaf_record state state_id fy district block
                             (find_all "td" row))
              (filter (fun row => 14 ≤ length (find_all "td" row))
                      (data_rows doc))).
Proof.
  unfold LipiSwap.scrape_table_data, data_rows.
  destruct (find_by_id "table" "t1" doc) as [table|]; [|done].
  cbv zeta.
  rewrite (for_in_omap
             (fun row =>
                if decide (14 ≤ length (find_all "td" row))
                then Some (leaf_record state state_id fy district block
                                       (find_all "td" row))
                else None)).
  - simpl. f_equal.
    apply (omap_filter_map (fun row => 14 ≤ length (find_all "td" row))).
  - intros data row _. apply scrape_row.
Qed.

(** C1: on every parsed block page, [scrape_table_data] returns one
    record for each post-header row with at least 14 cells, in row order,
    and nothing for the rows with fewer cells.  The record of a row carries
    the caller's context, the transliterated and trimmed text of the second
    cell as Panchayat, and the trimmed, untransliterated texts of cells 3 to
    14 under April, May, ..., December, January, February, March in that
    order. *)
Theorem scrape_table_data_rows (doc : node)
    (state state_id fy district block : string) :
  LipiSwap.scrape_table_data (Some doc) state state_id fy district block
  = Done (map (fun row =>
                 leaf_record state state_id fy district block
                             (find_all "td" row))
              (filter (fun row => 14 ≤ length (find_all "td" row))
                      (data_rows doc)))
  ∧ ∀ c1 c2 c3 c4 c5 c6 c7 c8 c9 c10 c11 c12 c13 c14 more,
      leaf_record state state_id fy district block
        (c1 :: c2 :: c3 :: c4 :: c5 :: c6 :: c7 :: c8 :: c9 :: c10 :: c11
            :: c12 :: c13 :: c14 :: more)
      = [("State", state); ("State ID", state_id); ("FY", fy);
         ("District", district); ("Block", block);
         ("Panchayat", unidecode (strip (get_text c2)));
         ("April", strip (get_text c3)); ("May", strip (get_text c4));
         ("June", strip (get_text c5)); ("July", strip (get_text c6));
         ("August", strip (get_text c7));
         ("September", strip (get_text c8));
         ("October", strip (get_text c9));
         ("November", strip (get_text c10));
         ("December", strip (get_text c11));
         ("January", strip (get_text c12));
         ("February", strip (get_text c13));
         ("March", strip (get_text c14))].
Proof.
  split; [apply scrape_table_data_page|].
  intros. reflexivity.
Qed.
End Extractors.

(** ** Links *)
Section Links.
Context {L : Libs}.

(** One turn of the loop of [extract_links]. *)
Lemma links_row (base : string) (row : node)
    (links : list (string * string)) :
  (let cells := find_all "td" row in
   if bool_decide (2 ≤ length cells) then
     cell ← getitem cells 1;
     match find "a" cell with
     | Some link_tag =>
         let name := unidecode (strip (get_text link_tag)) in
         href ← tag_getitem link_tag "href";
         let full_url := urljoin base href in
         Done (links ++ [(name, full_url)])
     | None => Done links
     end
   else Done links)
  = match row_link row with
    | Some a =>
        match link_pair base a with
        | Some nu => Done (links ++ [nu])
        | None => Raised (KeyError "href")
        end
    | None => Done links
    end.
Proof.
  unfold row_link. cbv zeta.
  destruct (bool_decide (2 ≤ length (find_all "td" row))) eqn:Hlen; [|done].
  apply bool_decide_eq_true_1 in Hlen.
  destruct (find_all "td" row) as [|c0 [|c1 cells]]; [simpl in Hlen; lia..|].
  simpl. destruct (find "a" c1) as [a|]; [|done].
  unfold link_pair. by destruct a as [s|nm attrs cs]; simpl;
    [|destruct (attrs !! "href")].
Qed.

Lemma for_in_links (base : string) (rows : list node)
    (body : list (string * string) → node → outcome (list (string * string)))
    (acc : list (string * string)) :
  (∀ links row,
     body links row
     = match row_link row with
       | Some a =>
           match link_pair base a with
           | Some nu => Done (links ++ [nu])
           | None => Raised (KeyError "href")
           end
       | None => Done links
       end) →
  for_in rows body acc
  = if forallb (fun row =>
                  match row_link row with
                  | Some a => bool_decide (is_Some (tag_attr a "href"))
                  | None => true
                  end) rows
    then Done (acc ++ omap (fun row => row_link row ≫= link_pair base) rows)
    else Raised (KeyError "href").
Proof.
  intros Hbody. revert acc.
  induction rows as [|row rows IH]; intros acc; simpl.
  - by rewrite app_nil_r.
  - rewrite Hbody. destruct (row_link row) as [a|]; simpl; [|apply IH].
    unfold link_pair.
    destruct (tag_attr a "href") as [href|] eqn:Hhref; simpl.
    + rewrite IH. destruct (forallb _ rows); [|done].
      by rewrite <- app_assoc.
    + done.
Qed.

(** [extract_links] of lipi-swap.py on a parsed page. *)
Lemma extract_links_page (doc : node) :
  LipiSwap.extract_links (Some doc)
  = if links_have_href doc
    then Done (omap (fun row => row_link row ≫= link_pair LipiSwap.base_url)
                    (data_rows doc))
    else Raised (KeyError "href").
Proof.
  unfold LipiSwap.extract_links, links_have_href, data_rows.
  destruct (find_by_id "table" "t1" doc) as [table|]; [|done].
  cbv zeta. rewrite (for_in_links LipiSwap.base_url); [done|].
  intros links row. apply links_row.
Qed.

(** [extract_links] of lipi-swap-refactored.py on a parsed page. *)
Lemma refactored_extract_links_page (doc : node) :
  LipiSwapRefactored.extract_links (Some doc)
  = if links_have_href doc
    then Done (omap (fun row =>
                       row_link row
                       ≫= link_pair LipiSwapRefactored.BASE_URL_PATH)
                    (data_rows doc))
    else Raised (KeyError "href").
Proof.
  unfold LipiSwapRefactored.extract_links, links_have_href, data_rows.
  destruct (find_by_id "table" "t1" doc) as [table|]; [|done].
  cbv zeta. rewrite (for_in_links LipiSwapRefactored.BASE_URL_PATH); [done|].
  intros links row. apply links_row.
Qed.



(** C4: on the absent document and on a parsed document without a table
    of id [t1], both extractors return the empty list and raise nothing. *)
Theorem extractors_empty_without_table (soup : option node)
    (state state_id fy district block : string) :
  soup = None ∨ (∃ doc, soup = Some doc ∧ find_by_id "table" "t1" doc = None) →
  LipiSwap.extract_links soup = Done []
  ∧ LipiSwap.scrape_table_data soup state state_id fy district block = Done [].
Proof.
  intros [->|(doc & -> & Htable)]; [done|].
  unfold LipiSwap.extract_links, LipiSwap.scrape_table_data.
  by rewrite Htable.
Qed.
End Links.



Lemma extractors_empty_without_table_witness :
  (Some Samples.plain_page = None
   ∨ (∃ doc, Some Samples.plain_page = Some doc
             ∧ find_by_id "table" "t1" doc = None))
  ∧ LipiSwap.extract_links (L := Samples.libs) (Some Samples.plain_page)
    = Done []
  ∧ LipiSwap.scrape_table_data (L := Samples.libs) (Some Samples.plain_page)
      "S" "09" "2023-24" "D" "B" = Done [].
Proof.
  assert (H : Some Samples.plain_page = None
              ∨ (∃ doc, Some Samples.plain_page = Some doc
                        ∧ find_by_id "table" "t1" doc = None)).
  { right. exists Samples.plain_page. split; [done|]. by vm_compute. }
  split; [exact H|].
  exact (extractors_empty_without_table (L := Samples.libs)
           (Some Samples.plain_page) "S" "09" "2023-24" "D" "B" H).
Defined.

(** ** The page fetcher *)
Section Fetcher.
Context {L : Libs}.

(** What a call of [get_soup] does, by the answer of the network. *)
Lemma get_soup_run (url : string) (t : list event) :
  LipiSwap.get_soup url t
  = match fetch_failure (requests_get (quiet t) url) with
    | None =>
        (Done (Some (page_of (requests_get (quiet t) url))),
         t ++ [EvRequest url; EvSleep 1])
    | Some msg =>
        (Done None, t ++ [EvRequest url; EvPrint (fetch_error_line url msg)])
    end.
Proof.
  unfold LipiSwap.get_soup, try_except, requests_get_call, mbind, M_bind.
  destruct (requests_get (quiet t) url) as [msg|[err body]]; simpl.
  - unfold print, emit, mbind, M_bind. by rewrite <- app_assoc.
  - unfold raise_for_status. destruct err as [msg|]; simpl.
    + unfold print, emit, mbind, M_bind. by rewrite <- app_assoc.
    + by rewrite <- app_assoc.
Qed.

Lemma refactored_get_soup_run (url : string) (verbose : bool)
    (t : list event) :
  LipiSwapRefactored.get_soup url verbose t
  = match fetch_failure (requests_get (quiet t) url) with
    | None =>
        (Done (Some (page_of (requests_get (quiet t) url))),
         t ++ [EvRequest url; EvSleep 1])
    | Some msg =>
        (Done None,
         t ++ [EvRequest url]
           ++ (if verbose then [EvPrint (fetch_error_line url msg)] else []))
    end.
Proof.
  unfold LipiSwapRefactored.get_soup, try_except, requests_get_call, mbind,
    M_bind.
  destruct (requests_get (quiet t) url) as [msg|[err body]]; simpl.
  - destruct verbose; simpl; [|done].
    unfold print, emit, mbind, M_bind. by rewrite <- app_assoc.
  - unfold raise_for_status. destruct err as [msg|]; simpl.
    + destruct verbose; simpl; [|done].
      unfold print, emit, mbind, M_bind. by rewrite <- app_assoc.
    + by rewrite <- app_assoc.
Qed.

(** C2, as amended: a call of [get_soup] whose fetch succeeds makes the
    request, pauses for 1 second and returns the parsed page; a call whose
    fetch fails (no answer, or a bad status) makes the request, reports the
    error on the console and returns the absent document without any
    pause. *)
Theorem get_soup_delay_after_success (url : string) (t : list event) :
  match fetch_failure (requests_get (quiet t) url) with
  | None =>
      ∃ doc, LipiSwap.get_soup url t
             = (Done (Some doc), t ++ [EvRequest url; EvSleep 1])
  | Some msg =>
      LipiSwap.get_soup url t
      = (Done None, t ++ [EvRequest url; EvPrint (fetch_error_line url msg)])
  end.
Proof.
  rewrite get_soup_run.
  destruct (fetch_failure (requests_get (quiet t) url)); eauto.
Qed.
End Fetcher.

(** C2 fails on the sample web: the block page [/b2] cannot be reached and
    the district page [/d2] answers with a bad status, and neither call of
    [get_soup] pauses. *)
Lemma get_soup_failure_has_no_delay :
  ((LipiSwap.get_soup (L := Samples.libs) "/b2" []).2
   = [EvRequest "/b2"; EvPrint "Error fetching /b2: connection refused"])
  ∧ ((LipiSwap.get_soup (L := Samples.libs) "/d2" []).2
     = [EvRequest "/d2"; EvPrint "Error fetching /d2: 404 Client Error"])
  ∧ (EvSleep 1 ∉ (LipiSwap.get_soup (L := Samples.libs) "/b2" []).2)
  ∧ (EvSleep 1 ∉ (LipiSwap.get_soup (L := Samples.libs) "/d2" []).2).
Proof.
  assert (Hb : (LipiSwap.get_soup (L := Samples.libs) "/b2" []).2
               = [EvRequest "/b2";
                  EvPrint "Error fetching /b2: connection refused"])
    by (by vm_compute).
  assert (Hd : (LipiSwap.get_soup (L := Samples.libs) "/d2" []).2
               = [EvRequest "/d2";
                  EvPrint "Error fetching /d2: 404 Client Error"])
    by (by vm_compute).
  rewrite Hb, Hd. repeat split; intros H;
    repeat (apply elem_of_cons in H as [H|H]; [discriminate|]);
    by apply elem_of_nil in H.
Qed.


(** ** The crawl context *)
Section Context_of_url.
Context {L : Libs}.

(** The values that [parse_qsl] keeps for [key]. *)
Lemma parse_qsl_values (key : string) (fields : list string) :
  map snd
      (filter (fun p => p.1 = key)
              (foldr (fun name_value r =>
                        if is_empty_string name_value then r
                        else match split_once "="%char name_value with
                             | None => r
                             | Some (n, v) =>
                                 if is_empty_string v then r
                                 else (unquote (plus_to_space n),
                                       unquote (plus_to_space v)) :: r
                             end)
                     [] fields))
  = map (fun v => unquote (plus_to_space v))
        (filter (fun v => ¬ is_empty_string v)
                (map snd
                     (filter (fun f => f.1 = key)
                             (map query_field
                                  (filter (fun nv => ¬ is_empty_string nv)
                                          fields))))).
Proof.
  induction fields as [|f fields IH]; [done|].
  rewrite (filter_cons _ f). simpl.
  destruct (is_empty_string f) eqn:Hf.
  { case_decide as Hd; [by destruct Hd|]. apply IH. }
  case_decide as Hd; [clear Hd|by destruct Hd].
  simpl. rewrite filter_cons.
  assert (Hq : query_field f
               = match split_once "="%char f with
                 | Some (n, v) => (unquote (plus_to_space n), v)
                 | None => (unquote (plus_to_space f), "")
                 end) by done.
  destruct (split_once "=" f) as [[n v]|]; rewrite Hq; clear Hq; simpl.
  - destruct (is_empty_string v) eqn:Hv.
    + destruct (decide (unquote (plus_to_space n) = key)); simpl; [|done].
      rewrite filter_cons. rewrite Hv.
      case_decide as Hd; [by destruct Hd|]. done.
    + rewrite filter_cons. simpl.
      destruct (decide (unquote (plus_to_space n) = key)); simpl; [|done].
      rewrite filter_cons. rewrite Hv.
      case_decide as Hd; [clear Hd|by destruct Hd]. simpl.
      by rewrite IH.
  - destruct (decide (unquote (plus_to_space f) = key)); simpl; [|done].
    rewrite filter_cons. simpl. apply IH.
Qed.

(** The entry that [parse_qs] builds for [key], starting from [d]. *)
Lemma parse_qs_fold_lookup (key : string) (pairs : list (string * string))
    (d : gmap string (list string)) :
  foldl (fun (d : gmap string (list string)) '(name, value) =>
           match d !! name with
           | Some vs => <[name := vs ++ [value]]> d
           | None => <[name := [value]]> d
           end) d pairs !! key
  = match d !! key, map snd (filter (fun p => p.1 = key) pairs) with
    | Some ws, vs => Some (ws ++ vs)
    | None, [] => None
    | None, vs => Some vs
    end.
Proof.
  revert d. induction pairs as [|[n v] pairs IH]; intros d.
  - simpl. destruct (d !! key); by rewrite ?app_nil_r.
  - cbn [foldl]. rewrite IH, filter_cons. simpl.
    destruct (decide (n = key)) as [->|Hne]; simpl.
    + destruct (d !! key) as [ws|]; rewrite lookup_insert_eq.
      * by rewrite <- app_assoc.
      * done.
    + destruct (d !! n); by rewrite lookup_insert_ne by done.
Qed.

Lemma parse_qs_get_first (key qs : string) :
  getitem (dict_get_default (parse_qs qs) key ["Unknown"]) 0
  = Done (param_or_unknown key qs).
Proof.
  unfold dict_get_default, parse_qs, param_or_unknown, parameter_values.
  rewrite parse_qs_fold_lookup, lookup_empty.
  unfold parse_qsl. rewrite parse_qsl_values.
  by destruct (filter _ (map snd _)).
Qed.

Lemma state_context_run (state_url : string) :
  LipiSwap.state_context state_url
  = Done (state_of state_url, state_id_of state_url, fy_of state_url).
Proof.
  unfold LipiSwap.state_context. cbv zeta.
  by rewrite !parse_qs_get_first.
Qed.

(** C8, as amended: the crawl context of a state URL is read without any
    error; each of [state_name], [state_code] and [fin_year] is the decoded
    first non-blank value that the query string gives it, and the literal
    "Unknown" when the query string gives it none, be it that the parameter
    is absent from the URL or that all its values are blank. *)
Theorem state_context_defaults (state_url : string) :
  LipiSwap.state_context state_url
  = Done (param_or_unknown "state_name" (urlparse_query state_url),
          param_or_unknown "state_code" (urlparse_query state_url),
          param_or_unknown "fin_year" (urlparse_query state_url))
  ∧ ∀ key,
      match filter (fun v => ¬ is_empty_string v)
                   (parameter_values key (urlparse_query state_url)) with
      | v :: _ =>
          param_or_unknown key (urlparse_query state_url)
          = unquote (plus_to_space v)
      | [] => param_or_unknown key (urlparse_query state_url) = "Unknown"
      end
      ∧ (parameter_values key (urlparse_query state_url) = [] →
         param_or_unknown key (urlparse_query state_url) = "Unknown").
Proof.
  split; [apply state_context_run|].
  intros key. unfold param_or_unknown. split.
  - by destruct (filter _ _).
  - by intros ->.
Qed.

Lemma refactored_state_context (state_url : string) :
  LipiSwapRefactored.state_context state_url
  = LipiSwap.state_context state_url.
Proof. reflexivity. Qed.
End Context_of_url.

(** C8 fails on a URL that carries [state_name] with a blank value: the
    parameter is present, its first value is the empty string, and the crawl
    context takes "Unknown" for it; with a second, non-blank value the
    context takes that one and not the first. *)
Lemma blank_state_name_gives_unknown :
  parameter_values (L := Samples.libs) "state_name"
    "state_name=&state_code=09&fin_year=2023-24" = [""]
  ∧ LipiSwap.state_context (L := Samples.libs)
      "http://s/?state_name=&state_code=09&fin_year=2023-24"
    = Done ("Unknown", "09", "2023-24")
  ∧ parameter_values (L := Samples.libs) "state_name"
      "state_name=&state_name=UP" = [""; "UP"]
  ∧ LipiSwap.state_context (L := Samples.libs)
      "http://s/?state_name=&state_name=UP"
    = Done ("UP", "Unknown", "Unknown").
Proof. repeat split; by vm_compute. Qed.

(** ** The orchestrator: what a failed fetch costs *)
Section Failures.
Context {L : Libs}.

Lemma quiet_app (t1 t2 : list event) : quiet (t1 ++ t2) = quiet t1 ++ quiet t2.
Proof. apply filter_app. Qed.

Lemma quiet_print (t : list event) (line : string) :
  quiet (t ++ [EvPrint line]) = quiet t.
Proof. rewrite quiet_app. simpl. apply app_nil_r. Qed.

(** A state whose page cannot be fetched: one request, two console lines,
    and the collection as it was. *)
Lemma state_body_failure (url msg : string) (all_data : list record)
    (t : list event) :
  fetch_failure (requests_get (quiet t) url) = Some msg →
  LipiSwap.state_body all_data url t
  = (Done all_data,
     t ++ [EvPrint ("Processing state: " +:+ state_of url);
           EvRequest url;
           EvPrint (fetch_error_line url msg);
           EvPrint ("Failed to fetch state page for " +:+ state_of url
                    +:+ ". Skipping.")]).
Proof.
  intros Hfail. unfold LipiSwap.state_body, mbind, M_bind, lift.
  rewrite state_context_run. unfold print, emit.
  rewrite get_soup_run, quiet_print, Hfail.
  by rewrite <- !app_assoc.
Qed.

Lemma district_body_failure (state state_id fy name url msg : string)
    (all_data : list record) (t : list event) :
  fetch_failure (requests_get (quiet t) url) = Some msg →
  LipiSwap.district_body state state_id fy all_data (name, url) t
  = (Done all_data,
     t ++ [EvPrint ("Processing district: " +:+ name +:+ " in " +:+ state);
           EvRequest url;
           EvPrint (fetch_error_line url msg);
           EvPrint ("Skipping " +:+ name +:+ " due to fetch error.")]).
Proof.
  intros Hfail. unfold LipiSwap.district_body, mbind, M_bind, print, emit.
  rewrite get_soup_run, quiet_print, Hfail.
  by rewrite <- !app_assoc.
Qed.

Lemma block_body_failure (state state_id fy district_name name url msg : string)
    (all_data : list record) (t : list event) :
  fetch_failure (requests_get (quiet t) url) = Some msg →
  LipiSwap.block_body state state_id fy district_name all_data (name, url) t
  = (Done all_data,
     t ++ [EvPrint ("Processing block: " +:+ name +:+ " in " +:+ district_name
                    +:+ ", " +:+ state);
           EvRequest url;
           EvPrint (fetch_error_line url msg);
           EvPrint ("Skipping " +:+ name +:+ " due to fetch error.")]).
Proof.
  intros Hfail. unfold LipiSwap.block_body, mbind, M_bind, print, emit.
  rewrite get_soup_run, quiet_print, Hfail.
  by rewrite <- !app_assoc.
Qed.

(** C6: when the fetch of a state, district or block page fails, the turn
    of the loop for that page makes this one request, reports it, adds no
    record and requests nothing below the page; the loop then goes on with
    the remaining states, districts or blocks exactly as it would have
    without the failed page in front.  Nothing is retried and the run is
    not aborted. *)
Theorem fetch_failure_skips_only_its_subtree (url msg : string)
    (t : list event) :
  fetch_failure (requests_get (quiet t) url) = Some msg →
  (∀ (rest : list string) (all_data : list record),
     for_each (url :: rest) LipiSwap.state_body all_data t
     = for_each rest LipiSwap.state_body all_data
         (t ++ [EvPrint ("Processing state: " +:+ state_of url);
                EvRequest url;
                EvPrint (fetch_error_line url msg);
                EvPrint ("Failed to fetch state page for " +:+ state_of url
                         +:+ ". Skipping.")]))
  ∧ (∀ (state state_id fy name : string) (rest : list (string * string))
       (all_data : list record),
       for_each ((name, url) :: rest)
                (LipiSwap.district_body state state_id fy) all_data t
       = for_each rest (LipiSwap.district_body state state_id fy) all_data
           (t ++ [EvPrint ("Processing district: " +:+ name +:+ " in "
                           +:+ state);
                  EvRequest url;
                  EvPrint (fetch_error_line url msg);
                  EvPrint ("Skipping " +:+ name +:+ " due to fetch error.")]))
  ∧ (∀ (state state_id fy district_name name : string)
       (rest : list (string * string)) (all_data : list record),
       for_each ((name, url) :: rest)
                (LipiSwap.block_body state state_id fy district_name)
                all_data t
       = for_each rest (LipiSwap.block_body state state_id fy district_name)
           all_data
           (t ++ [EvPrint ("Processing block: " +:+ name +:+ " in "
                           +:+ district_name +:+ ", " +:+ state);
                  EvRequest url;
                  EvPrint (fetch_error_line url msg);
                  EvPrint ("Skipping " +:+ name +:+ " due to fetch error.")])).
Proof.
  intros Hfail. repeat split; intros; cbn [for_each]; unfold mbind, M_bind.
  - by rewrite (state_body_failure url msg).
  - by rewrite (district_body_failure _ _ _ name url msg).
  - by rewrite (block_body_failure _ _ _ _ name url msg).
Qed.
End Failures.

Lemma fetch_failure_skips_only_its_subtree_witness :
  fetch_failure (@requests_get Samples.libs (quiet []) "/b2")
  = Some "connection refused"
  ∧ for_each ["/b2"; Samples.state_url] (LipiSwap.state_body (L := Samples.libs))
             [] []
    = for_each [Samples.state_url] (LipiSwap.state_body (L := Samples.libs)) []
        [EvPrint "Processing state: Unknown";
         EvRequest "/b2";
         EvPrint "Error fetching /b2: connection refused";
         EvPrint "Failed to fetch state page for Unknown. Skipping."].
Proof.
  split; [reflexivity|].
  exact (proj1 (fetch_failure_skips_only_its_subtree (L := Samples.libs)
                  "/b2" "connection refused" [] eq_refl)
               [Samples.state_url] []).
Defined.

(** ** The orchestrator: where the records come from *)
Section Provenance.
Context {L : Libs}.

(** A loop that appends what each turn finds is the concatenation of the
    turns. *)
Lemma for_each_collect {A B R} (f : B → R) (l : list A)
    (body : list R → A → M (list R)) (visit : A → M (list B)) :
  (∀ acc x t,
     body acc x t
     = match visit x t with
       | (Done rs, t') => (Done (acc ++ map f rs), t')
       | (Raised e, t') => (Raised e, t')
       end) →
  ∀ acc t,
    for_each l body acc t
    = match collect l visit t with
      | (Done rs, t') => (Done (acc ++ map f rs), t')
      | (Raised e, t') => (Raised e, t')
      end.
Proof.
  intros Hbody. induction l as [|x l IH]; intros acc t.
  - cbn. unfold mret, M_ret. by rewrite app_nil_r.
  - cbn [for_each collect]. unfold mbind, M_bind, mret, M_ret.
    rewrite Hbody.
    destruct (visit x t) as [[r|e] t1]; [|done].
    rewrite IH.
    destruct (collect l visit t1) as [[rs|e] t2]; [|done].
    by rewrite map_app, app_assoc.
Qed.

Lemma block_body_rows (state_url : string) (district block : string * string)
    (acc : list record) (t : list event) :
  LipiSwap.block_body (state_of state_url) (state_id_of state_url)
    (fy_of state_url) district.1 acc block t
  = match block_rows state_url district block t with
    | (Done rs, t') => (Done (acc ++ map record_of_reached rs), t')
    | (Raised e, t') => (Raised e, t')
    end.
Proof.
  destruct block as [block_name block_url].
  unfold LipiSwap.block_body, block_rows.
  unfold mbind, M_bind, mret, M_ret, print, emit, lift.
  cbn [fst snd]. rewrite get_soup_run.
  destruct (fetch_failure _) as [msg|]; [by rewrite app_nil_r|].
  rewrite scrape_table_data_page. cbv zeta.
  by rewrite !length_map, map_map.
Qed.

Lemma district_body_rows (state_url : string) (district : string * string)
    (acc : list record) (t : list event) :
  LipiSwap.district_body (state_of state_url) (state_id_of state_url)
    (fy_of state_url) acc district t
  = match district_rows state_url district t with
    | (Done rs, t') => (Done (acc ++ map record_of_reached rs), t')
    | (Raised e, t') => (Raised e, t')
    end.
Proof.
  destruct district as [district_name district_url].
  unfold LipiSwap.district_body, district_rows.
  unfold mbind, M_bind, mret, M_ret, print, emit, lift.
  cbn [fst snd]. rewrite get_soup_run.
  destruct (fetch_failure _) as [msg|]; [by rewrite app_nil_r|].
  destruct (LipiSwap.extract_links _) as [block_links|e]; [|done].
  apply (for_each_collect record_of_reached).
  intros acc' block t'.
  apply (block_body_rows state_url (district_name, district_url)).
Qed.

Lemma state_body_rows (state_url : string) (acc : list record)
    (t : list event) :
  LipiSwap.state_body acc state_url t
  = match state_rows state_url t with
    | (Done rs, t') => (Done (acc ++ map record_of_reached rs), t')
    | (Raised e, t') => (Raised e, t')
    end.
Proof.
  unfold LipiSwap.state_body, state_rows.
  unfold mbind, M_bind, mret, M_ret, print, emit, lift.
  rewrite state_context_run, get_soup_run.
  destruct (fetch_failure _) as [msg|]; [by rewrite app_nil_r|].
  destruct (LipiSwap.extract_links _) as [district_links|e]; [|done].
  apply (for_each_collect record_of_reached).
  intros acc' district t'. apply district_body_rows.
Qed.

(** The loops of [main] return the records of the rows they reach. *)
Lemma crawl_rows (state_urls : list string) (t : list event) :
  for_each state_urls LipiSwap.state_body [] t
  = match rows_reached state_urls t with
    | (Done rs, t') => (Done (map record_of_reached rs), t')
    | (Raised e, t') => (Raised e, t')
    end.
Proof.
  unfold rows_reached.
  rewrite (for_each_collect record_of_reached _ _ state_rows); [done|].
  intros acc state_url t'. apply state_body_rows.
Qed.

(** C7: the collection that the loops of [main] accumulate is, record for
    record and in the same order, the list of the rows that the crawl
    reaches (state-list order, then the order of the extracted links at the
    district and block levels, then row order), each row turned into a
    record with the context of the very path that reached it: State, State
    ID and FY from the query of its state URL, District and Block from the
    names of its district and block links. *)
Theorem collection_follows_paths (state_urls : list string) (t : list event) :
  for_each state_urls LipiSwap.state_body [] t
  = (rs ← rows_reached state_urls; mret (map record_of_reached rs)) t
  ∧ ∀ (state_url district_name district_url block_name block_url : string)
      (row : node),
      let r := record_of_reached
                 ((state_url, (district_name, district_url),
                   (block_name, block_url)), row) in
      dict_get "State" r = Some (state_of state_url)
      ∧ dict_get "State ID" r = Some (state_id_of state_url)
      ∧ dict_get "FY" r = Some (fy_of state_url)
      ∧ dict_get "District" r = Some district_name
      ∧ dict_get "Block" r = Some block_name.
Proof.
  split; [|by intros].
  rewrite crawl_rows. unfold mbind, M_bind, mret, M_ret.
  by destruct (rows_reached state_urls t) as [[rs|e] t'].
Qed.
End Provenance.

(** ** The orchestrator: the file it writes *)
Section Output.
Context {L : Libs}.

Lemma run_ok_ret {A} (a : A) (P : A → Prop) : P a → run_ok (mret a) P.
Proof.
  intros Ha t. exists []. cbn. rewrite app_nil_r.
  split; [done|]. split; [constructor|]. by intros ? [= <-].
Qed.

Lemma run_ok_bind {A B} (m : M A) (k : A → M B) (P : A → Prop)
    (Q : B → Prop) :
  run_ok m P → (∀ a, P a → run_ok (k a) Q) → run_ok (m ≫= k) Q.
Proof.
  intros Hm Hk t. destruct (Hm t) as (added1 & Ht1 & Hcsv1 & HP).
  unfold mbind, M_bind. destruct (m t) as [[a|e] t1]; simpl in *.
  - destruct (Hk a (HP a eq_refl) t1) as (added2 & Ht2 & Hcsv2 & HQ).
    subst t1. exists (added1 ++ added2). rewrite Ht2, app_assoc.
    repeat split; [by apply Forall_app|done].
  - exists added1. repeat split; try done.
Qed.

Lemma run_ok_print (line : string) (P : () → Prop) :
  P () → run_ok (print line) P.
Proof.
  intros HP t. exists [EvPrint line].
  split; [done|]. split; [|by intros [] _].
  apply Forall_cons. split; [by intros []|constructor].
Qed.

Lemma run_ok_then {A B} (m : M A) (k : A → M B) (Q : B → Prop) :
  run_ok m (fun _ => True) → (∀ a, run_ok (k a) Q) → run_ok (m ≫= k) Q.
Proof. intros Hm Hk. eapply run_ok_bind; [exact Hm|]. intros a _. apply Hk. Qed.

Lemma run_ok_print_then {B} (line : string) (k : M B) (Q : B → Prop) :
  run_ok k Q → run_ok (print line;; k) Q.
Proof. intros Hk. apply run_ok_then; [by apply run_ok_print|done]. Qed.

Lemma run_ok_lift {A} (o : outcome A) (P : A → Prop) :
  (∀ a, o = Done a → P a) → run_ok (lift o) P.
Proof.
  intros HP t. exists []. cbn. rewrite app_nil_r.
  split; [done|]. split; [constructor|done].
Qed.

Lemma run_ok_get_soup (url : string) :
  run_ok (LipiSwap.get_soup url) (fun _ => True).
Proof.
  intros t. rewrite get_soup_run.
  destruct (fetch_failure _); eexists; cbn; (split; [done|]);
    (split; [|done]); repeat (apply Forall_cons; split; [by intros []|]);
    constructor.
Qed.

Lemma run_ok_for_each {A S} (I : S → Prop) (l : list A)
    (body : S → A → M S) :
  (∀ s x, I s → run_ok (body s x) I) →
  ∀ s, I s → run_ok (for_each l body s) I.
Proof.
  intros Hbody. induction l as [|x l IH]; intros s Hs; cbn [for_each].
  - by apply run_ok_ret.
  - eapply run_ok_bind; [by apply Hbody|]. apply IH.
Qed.

Lemma leaf_record_full (state state_id fy district block : string)
    (cells : list node) :
  14 ≤ length cells →
  full_record (leaf_record state state_id fy district block cells).
Proof.
  intros Hlen.
  do 14 (destruct cells as [|? cells]; [simpl in Hlen; lia|]).
  reflexivity.
Qed.

Lemma run_ok_block_body (state state_id fy district_name : string)
    (all_data : list record) (link : string * string) :
  Forall full_record all_data →
  run_ok (LipiSwap.block_body state state_id fy district_name all_data link)
         (Forall full_record).
Proof.
  intros Hdata. destruct link as [block_name block_url].
  unfold LipiSwap.block_body.
  apply run_ok_print_then.
  apply run_ok_then; [apply run_ok_get_soup|]. intros [doc|].
  - eapply run_ok_bind.
    + apply (run_ok_lift _ (Forall full_record)).
      rewrite scrape_table_data_page. intros data [= <-].
      apply Forall_forall. intros r Hr%list_elem_of_In.
      apply in_map_iff in Hr as [row [<- Hrow]].
      apply leaf_record_full.
      apply list_elem_of_In, list_elem_of_filter in Hrow. by destruct Hrow.
    + intros data Hnew. cbv zeta.
      apply run_ok_print_then.
      apply run_ok_ret. by apply Forall_app.
  - apply run_ok_print_then.
    by apply run_ok_ret.
Qed.

Lemma run_ok_district_body (state state_id fy : string)
    (all_data : list record) (link : string * string) :
  Forall full_record all_data →
  run_ok (LipiSwap.district_body state state_id fy all_data link)
         (Forall full_record).
Proof.
  intros Hdata. destruct link as [district_name district_url].
  unfold LipiSwap.district_body.
  apply run_ok_print_then.
  apply run_ok_then; [apply run_ok_get_soup|]. intros [doc|].
  - apply run_ok_then; [by apply run_ok_lift|]. intros block_links.
    apply run_ok_print_then.
    apply run_ok_for_each; [|done].
    intros. by apply run_ok_block_body.
  - apply run_ok_print_then.
    by apply run_ok_ret.
Qed.

Lemma run_ok_state_body (all_data : list record) (state_url : string) :
  Forall full_record all_data →
  run_ok (LipiSwap.state_body all_data state_url) (Forall full_record).
Proof.
  intros Hdata. unfold LipiSwap.state_body.
  apply run_ok_then; [by apply run_ok_lift|].
  intros [[state state_id] fy].
  apply run_ok_print_then.
  apply run_ok_then; [apply run_ok_get_soup|]. intros [doc|].
  - apply run_ok_then; [by apply run_ok_lift|]. intros district_links.
    apply run_ok_print_then.
    apply run_ok_for_each; [|done].
    intros. by apply run_ok_district_body.
  - apply run_ok_print_then.
    by apply run_ok_ret.
Qed.

(** The loops of [main] write no file and collect full records only. *)
Lemma run_ok_crawl (state_urls : list string) :
  run_ok (for_each state_urls LipiSwap.state_body []) (Forall full_record).
Proof.
  apply run_ok_for_each; [|constructor].
  intros. by apply run_ok_state_body.
Qed.

(** *** The data frame of full records *)

Lemma add_new_known (acc l : list string) :
  (∀ x, x ∈ l → x ∈ acc) → foldl add_new acc l = acc.
Proof.
  induction l as [|x l IH]; intros Hin; [done|].
  cbn [foldl]. unfold add_new at 2.
  rewrite bool_decide_eq_true_2 by (apply Hin; by left).
  apply IH. intros y Hy. apply Hin. by right.
Qed.

Lemma dict_get_keys (r : record) :
  NoDup (map fst r) →
  map (fun c => default "" (dict_get c r)) (map fst r) = map snd r.
Proof.
  induction r as [|[k v] r IH]; [done|].
  cbn [map fst snd]. intros [Hk Hnd]%NoDup_cons.
  cbn [dict_get]. rewrite bool_decide_eq_true_2 by done. cbn. f_equal.
  rewrite <- IH by done. apply map_ext_in.
  intros c Hc. rewrite bool_decide_eq_false_2; [done|].
  intros ->. by apply Hk, list_elem_of_In.
Qed.

Lemma csv_columns_NoDup : NoDup csv_columns.
Proof. by apply (bool_decide_unpack _); vm_compute. Qed.

Lemma pd_DataFrame_full (data : list record) :
  Forall full_record data → data ≠ [] →
  pd_DataFrame data
  = {| columns := csv_columns; values := map (map snd) data |}.
Proof.
  intros Hfull Hne. unfold pd_DataFrame.
  assert (Hcols : foldl add_new [] (concat (map (map fst) data))
                  = csv_columns).
  { destruct data as [|r data]; [done|].
    apply Forall_cons in Hfull as [Hr Hdata].
    cbn [map concat]. rewrite foldl_app, Hr.
    change (foldl add_new [] csv_columns) with csv_columns.
    apply add_new_known. intros x Hx.
    apply list_elem_of_In, in_concat in Hx as (keys & Hkeys & Hx).
    apply in_map_iff in Hkeys as (r' & <- & Hr').
    rewrite Forall_forall in Hdata.
    rewrite (Hdata r') in Hx by by apply list_elem_of_In.
    by apply list_elem_of_In. }
  rewrite Hcols. f_equal.
  apply map_ext_in. intros r Hr.
  rewrite Forall_forall in Hfull.
  specialize (Hfull r (proj2 (list_elem_of_In _ _) Hr)).
  rewrite <- Hfull. apply dict_get_keys. rewrite Hfull.
  apply csv_columns_NoDup.
Qed.

(** C5: when all the states have been processed, the events of the run
    are those of the crawl, none of which writes a file, followed, if the
    collection is not empty, by one [to_csv] with the eighteen columns in
    their fixed order as header, one row of values per collected record,
    no index column and the encoding utf-8, and by the console line that
    reports it; if the collection is empty, by the console line alone, and
    no file is written. *)
Theorem main_writes_one_file (state_urls : list string) (t t' : list event)
    (all_data : list record) :
  for_each state_urls LipiSwap.state_body [] t = (Done all_data, t') →
  ∃ crawl_events,
    t' = t ++ crawl_events
    ∧ filter (fun e => is_to_csv e) crawl_events = []
    ∧ Forall full_record all_data
    ∧ LipiSwap.main state_urls t
      = (Done (),
         t ++ crawl_events
           ++ match all_data with
              | [] => [EvPrint "No data collected."]
              | _ :: _ =>
                  [EvToCsv "put/yourr/output/path/here.csv" csv_columns
                           (map (map snd) all_data) false "utf-8";
                   EvPrint ("Data saved to put/yourr/output/path/here.csv with "
                            +:+ pretty (length all_data) +:+ " rows.")]
              end).
Proof.
  intros Hcrawl.
  destruct (run_ok_crawl state_urls t) as (added & Ht & Hcsv & Hfull).
  rewrite Hcrawl in Ht, Hfull. cbn in Ht, Hfull.
  specialize (Hfull all_data eq_refl).
  exists added. split; [done|]. split.
  { clear -Hcsv. induction Hcsv as [|e l He _ IH]; [done|].
    rewrite filter_cons, decide_False by done. apply IH. }
  split; [done|].
  unfold LipiSwap.main, mbind, M_bind. rewrite Hcrawl, Ht.
  destruct all_data as [|r data].
  - unfold print, emit. by rewrite <- app_assoc.
  - rewrite pd_DataFrame_full by done.
    unfold to_csv, print, emit, mbind, M_bind. cbn [columns values].
    by rewrite length_map, <- !app_assoc.
Qed.
End Output.

Lemma main_writes_one_file_witness :
  for_each [Samples.state_url] (LipiSwap.state_body (L := Samples.libs)) [] []
  = (Done Samples.crawl_data, Samples.crawl_trace)
  ∧ ∃ crawl_events,
      Samples.crawl_trace = [] ++ crawl_events
      ∧ filter (fun e => is_to_csv e) crawl_events = []
      ∧ Forall full_record Samples.crawl_data
      ∧ LipiSwap.main (L := Samples.libs) [Samples.state_url] []
        = (Done (),
           [] ++ crawl_events
              ++ match Samples.crawl_data with
                 | [] => [EvPrint "No data collected."]
                 | _ :: _ =>
                     [EvToCsv "put/yourr/output/path/here.csv" csv_columns
                              (map (map snd) Samples.crawl_data) false "utf-8";
                      EvPrint
                        ("Data saved to put/yourr/output/path/here.csv with "
                         +:+ pretty (length Samples.crawl_data) +:+ " rows.")]
                 end).
Proof.
  split; [by vm_compute|].
  apply (main_writes_one_file (L := Samples.libs) [Samples.state_url] []
           Samples.crawl_trace Samples.crawl_data).
  by vm_compute.
Defined.

(** ** The two files *)
Section Refactoring.
Context {L : Libs}.

Lemma sim_ret {A} (a : A) : sim (mret a) (mret a).
Proof. by intros t1 t2 Ht. Qed.

Lemma sim_bind {A B} (m1 m2 : M A) (k1 k2 : A → M B) :
  sim m1 m2 → (∀ a, sim (k1 a) (k2 a)) → sim (m1 ≫= k1) (m2 ≫= k2).
Proof.
  intros Hm Hk t1 t2 Ht. destruct (Hm t1 t2 Ht) as [Hout Htrace].
  unfold mbind, M_bind.
  destruct (m1 t1) as [o1 t1'], (m2 t2) as [o2 t2']. simpl in *. subst o2.
  destruct o1 as [a|e]; [by apply Hk|done].
Qed.

Lemma sim_print_when (line : string) (verbose : bool) :
  sim (print line) (LipiSwapRefactored.when verbose (print line)).
Proof.
  intros t1 t2 Ht. destruct verbose; cbn; by rewrite ?quiet_print.
Qed.

Lemma sim_lift {A} (o : outcome A) : sim (lift o) (lift o).
Proof. by intros t1 t2 Ht. Qed.

Lemma sim_get_soup (url : string) (verbose : bool) :
  sim (LipiSwap.get_soup url) (LipiSwapRefactored.get_soup url verbose).
Proof.
  intros t1 t2 Ht. rewrite get_soup_run, refactored_get_soup_run, Ht.
  destruct (fetch_failure _) as [msg|]; cbn [fst snd].
  - split; [done|]. rewrite !quiet_app, Ht. f_equal. by destruct verbose.
  - by rewrite !quiet_app, Ht.
Qed.

Lemma sim_for_each {A S} (l : list A) (body1 body2 : S → A → M S) :
  (∀ s x, sim (body1 s x) (body2 s x)) →
  ∀ s, sim (for_each l body1 s) (for_each l body2 s).
Proof.
  intros Hbody. induction l as [|x l IH]; intros s; cbn [for_each].
  - apply sim_ret.
  - by apply sim_bind.
Qed.

Lemma refactored_extract_links (soup : option node) :
  LipiSwapRefactored.extract_links soup = LipiSwap.extract_links soup.
Proof. reflexivity. Qed.

Lemma refactored_scrape_table_data (soup : option node)
    (state state_id fy district block : string) :
  LipiSwapRefactored.scrape_table_data soup state state_id fy district block
  = LipiSwap.scrape_table_data soup state state_id fy district block.
Proof. reflexivity. Qed.

Lemma sim_block_body (verbose : bool) (state state_id fy district_name : string)
    (all_data : list record) (link : string * string) :
  sim (LipiSwap.block_body state state_id fy district_name all_data link)
      (LipiSwapRefactored.block_body verbose state state_id fy district_name
         all_data link).
Proof.
  destruct link as [block_name block_url].
  unfold LipiSwap.block_body, LipiSwapRefactored.block_body.
  apply sim_bind; [apply sim_print_when|]. intros _.
  apply sim_bind; [apply sim_get_soup|]. intros [doc|].
  - apply sim_bind; [apply sim_lift|]. intros panchayat_data. cbv zeta.
    apply sim_bind; [apply sim_print_when|]. intros _. apply sim_ret.
  - apply sim_bind; [apply sim_print_when|]. intros _. apply sim_ret.
Qed.

Lemma sim_district_body (verbose : bool) (state state_id fy : string)
    (all_data : list record) (link : string * string) :
  sim (LipiSwap.district_body state state_id fy all_data link)
      (LipiSwapRefactored.district_body verbose state state_id fy all_data
         link).
Proof.
  destruct link as [district_name district_url].
  unfold LipiSwap.district_body, LipiSwapRefactored.district_body.
  apply sim_bind; [apply sim_print_when|]. intros _.
  apply sim_bind; [apply sim_get_soup|]. intros [doc|].
  - apply sim_bind; [apply sim_lift|]. intros block_links.
    apply sim_bind; [apply sim_print_when|]. intros _.
    apply sim_for_each. intros. apply sim_block_body.
  - apply sim_bind; [apply sim_print_when|]. intros _. apply sim_ret.
Qed.

Lemma sim_state_body (verbose : bool) (all_data : list record)
    (state_url : string) :
  sim (LipiSwap.state_body all_data state_url)
      (LipiSwapRefactored.state_body verbose all_data state_url).
Proof.
  unfold LipiSwap.state_body, LipiSwapRefactored.state_body.
  apply sim_bind; [apply sim_lift|]. intros [[state state_id] fy].
  apply sim_bind; [apply sim_print_when|]. intros _.
  apply sim_bind; [apply sim_get_soup|]. intros [doc|].
  - apply sim_bind; [apply sim_lift|]. intros district_links.
    apply sim_bind; [apply sim_print_when|]. intros _.
    apply sim_for_each. intros. apply sim_district_body.
  - apply sim_bind; [apply sim_print_when|]. intros _. apply sim_ret.
Qed.

(** C9, as amended: the two files return the same from [extract_links] and
    from [scrape_table_data]; their [get_soup] and the loops of their [main]
    return the same (the same page, the same accumulated collection) and
    make the same requests and pauses, whatever [verbose] is; and the two
    [main] end alike and have the same effects once the console lines and
    the path of the written file are set aside.  The files differ in their
    console lines, which the refactored one prints only when [verbose], and
    in the literal path of the output file. *)
Theorem refactored_agrees_but_for_logging_and_path (verbose : bool) :
  (∀ soup, LipiSwapRefactored.extract_links soup = LipiSwap.extract_links soup)
  ∧ (∀ soup state state_id fy district block,
       LipiSwapRefactored.scrape_table_data soup state state_id fy district
         block
       = LipiSwap.scrape_table_data soup state state_id fy district block)
  ∧ (∀ url, sim (LipiSwap.get_soup url)
                (LipiSwapRefactored.get_soup url verbose))
  ∧ (∀ state_urls,
       sim (for_each state_urls LipiSwap.state_body [])
           (for_each state_urls (LipiSwapRefactored.state_body verbose) []))
  ∧ (∀ state_urls t,
       (LipiSwap.main state_urls t).1
       = (LipiSwapRefactored.main state_urls verbose t).1
       ∧ map forget_path (quiet (LipiSwap.main state_urls t).2)
         = map forget_path
               (quiet (LipiSwapRefactored.main state_urls verbose t).2)).
Proof.
  split; [apply refactored_extract_links|].
  split; [apply refactored_scrape_table_data|].
  split; [intros; apply sim_get_soup|].
  assert (Hcrawl : ∀ state_urls,
             sim (for_each state_urls LipiSwap.state_body [])
                 (for_each state_urls (LipiSwapRefactored.state_body verbose)
                           [])).
  { intros. apply sim_for_each. intros. apply sim_state_body. }
  split; [exact Hcrawl|].
  intros state_urls t.
  destruct (Hcrawl state_urls t t eq_refl) as [Hout Htrace].
  unfold LipiSwap.main, LipiSwapRefactored.main, mbind, M_bind.
  destruct (for_each state_urls LipiSwap.state_body [] t) as [o1 t1].
  destruct (for_each state_urls (LipiSwapRefactored.state_body verbose) [] t)
    as [o2 t2].
  simpl in Hout, Htrace. subst o2.
  destruct o1 as [[|r data]|e]; cbn [fst snd].
  - destruct verbose; cbn; by rewrite ?quiet_print, Htrace.
  - unfold to_csv, emit, print. cbv zeta.
    destruct verbose; cbn [LipiSwapRefactored.when fst snd mret M_ret];
      unfold print, emit; cbn [fst snd];
      rewrite ?quiet_print, !quiet_app, !map_app, Htrace; done.
  - by rewrite Htrace.
Qed.
End Refactoring.

(** C9 fails on the sample web: both files collect one record and write
    it, the original to [put/yourr/output/path/here.csv] and the refactored one to
    [put/your/output/path/here.csv]: their effects differ even with the
    console lines set aside. *)
Lemma refactored_writes_to_another_path :
  filter (fun e => is_to_csv e)
         (LipiSwap.main (L := Samples.libs) [Samples.state_url] []).2
  = [EvToCsv "put/yourr/output/path/here.csv" csv_columns
             (map (map snd) Samples.crawl_data) false "utf-8"]
  ∧ filter (fun e => is_to_csv e)
           (LipiSwapRefactored.main (L := Samples.libs) [Samples.state_url]
              true []).2
    = [EvToCsv "put/your/output/path/here.csv" csv_columns
               (map (map snd) Samples.crawl_data) false "utf-8"]
  ∧ quiet (LipiSwap.main (L := Samples.libs) [Samples.state_url] []).2
    ≠ quiet (LipiSwapRefactored.main (L := Samples.libs) [Samples.state_url]
               true []).2.
Proof.
  split; [by vm_compute|]. split; [by vm_compute|].
  intros H. vm_compute in H. congruence.
Qed.

(** ** The orchestrator: when the run completes *)
Section Completion.
Context {L : Libs}.

Lemma returns_ret {A} (a : A) (P : A → Prop) : P a → returns (mret a) P.
Proof. intros Ha t. by exists a, t. Qed.

Lemma returns_bind {A B} (m : M A) (k : A → M B) (P : A → Prop)
    (Q : B → Prop) :
  returns m P → (∀ a, P a → returns (k a) Q) → returns (m ≫= k) Q.
Proof.
  intros Hm Hk t. destruct (Hm t) as (a & t1 & Hrun & Ha).
  unfold mbind, M_bind. rewrite Hrun. by apply Hk.
Qed.

Lemma returns_print_then {B} (line : string) (k : M B) (Q : B → Prop) :
  returns k Q → returns (print line;; k) Q.
Proof.
  intros Hk. apply (returns_bind _ _ (fun _ => True)); [|done].
  intros t. by exists (), (t ++ [EvPrint line]).
Qed.

Lemma returns_for_each {A S} (l : list A) (body : S → A → M S) :
  (∀ s x, returns (body s x) (fun _ => True)) →
  ∀ s, returns (for_each l body s) (fun _ => True).
Proof.
  intros Hbody. induction l as [|x l IH]; intros s; cbn [for_each].
  - by apply returns_ret.
  - apply (returns_bind _ _ (fun _ => True)); [apply Hbody|]. intros s' _.
    apply IH.
Qed.

Hypothesis Hserved : links_served.

Lemma returns_get_soup (url : string) :
  returns (LipiSwap.get_soup url)
          (fun soup => ∀ doc, soup = Some doc → links_have_href doc = true).
Proof.
  intros t. rewrite get_soup_run.
  destruct (requests_get (quiet t) url) as [msg|[err body]] eqn:Hanswer;
    cbn [fetch_failure http_error];
    [do 2 eexists; split; [done|]; by intros doc [=]|].
  destruct err as [msg|]; [do 2 eexists; split; [done|]; by intros doc [=]|].
  do 2 eexists. split; [done|]. intros doc [= <-].
  by apply (Hserved (quiet t) url {| http_error := None; text := body |}).
Qed.

Lemma returns_block_body (state state_id fy district_name : string)
    (all_data : list record) (link : string * string) :
  returns (LipiSwap.block_body state state_id fy district_name all_data link)
          (fun _ => True).
Proof.
  destruct link as [block_name block_url]. unfold LipiSwap.block_body.
  apply returns_print_then.
  eapply returns_bind; [apply returns_get_soup|]. intros [doc|] _.
  - rewrite scrape_table_data_page.
    apply (returns_bind _ _ (fun _ => True)); [intros t; by eauto|].
    intros data _. cbv zeta. apply returns_print_then. by apply returns_ret.
  - apply returns_print_then. by apply returns_ret.
Qed.

Lemma returns_district_body (state state_id fy : string)
    (all_data : list record) (link : string * string) :
  returns (LipiSwap.district_body state state_id fy all_data link)
          (fun _ => True).
Proof.
  destruct link as [district_name district_url]. unfold LipiSwap.district_body.
  apply returns_print_then.
  eapply returns_bind; [apply returns_get_soup|]. intros [doc|] Hdoc.
  - rewrite extract_links_page, (Hdoc doc eq_refl).
    apply (returns_bind _ _ (fun _ => True)); [intros t; by eauto|].
    intros block_links _. apply returns_print_then.
    apply returns_for_each. intros. apply returns_block_body.
  - apply returns_print_then. by apply returns_ret.
Qed.

Lemma returns_state_body (all_data : list record) (state_url : string) :
  returns (LipiSwap.state_body all_data state_url) (fun _ => True).
Proof.
  unfold LipiSwap.state_body. rewrite state_context_run.
  apply (returns_bind _ _ (fun _ => True)); [intros t; by eauto|].
  intros [[state state_id] fy] _. apply returns_print_then.
  eapply returns_bind; [apply returns_get_soup|]. intros [doc|] Hdoc.
  - rewrite extract_links_page, (Hdoc doc eq_refl).
    apply (returns_bind _ _ (fun _ => True)); [intros t; by eauto|].
    intros district_links _. apply returns_print_then.
    apply returns_for_each. intros. apply returns_district_body.
  - apply returns_print_then. by apply returns_ret.
Qed.

End Completion.


(** ** What a run adds to the trace *)
Section Trace_rules.
Context {L : Libs}.
Variable Tr : list event → Prop.
Hypothesis Tr_nil : Tr [].
Hypothesis Tr_app : ∀ a b, Tr a → Tr b → Tr (a ++ b).

Lemma rs_ret {A} (P : A → Prop) (E : exn → Prop) (a : A) :
  P a → run_spec Tr P E (mret a).
Proof. intros Ha t. exists []. cbn. by rewrite app_nil_r. Qed.

Lemma rs_bind {A B} (P : A → Prop) (Q : B → Prop) (E : exn → Prop)
    (m : M A) (k : A → M B) :
  run_spec Tr P E m → (∀ a, P a → run_spec Tr Q E (k a)) →
  run_spec Tr Q E (m ≫= k).
Proof.
  intros Hm Hk t. destruct (Hm t) as (added1 & Ht1 & Htr1 & Hout).
  unfold mbind, M_bind. destruct (m t) as [[a|e] t1]; simpl in *; subst t1.
  - destruct (Hk a Hout (t ++ added1)) as (added2 & Ht2 & Htr2 & Hout2).
    exists (added1 ++ added2). rewrite Ht2, app_assoc. auto.
  - exists added1. auto.
Qed.

Lemma rs_emit (P : () → Prop) (E : exn → Prop) (e : event) :
  Tr [e] → P () → run_spec Tr P E (emit e).
Proof. intros He HP t. by exists [e]. Qed.

Lemma rs_then {A B} (Q : B → Prop) (E : exn → Prop) (m : M A) (k : M B) :
  run_spec Tr (fun _ => True) E m → run_spec Tr Q E k →
  run_spec Tr Q E (m ≫= fun _ => k).
Proof. intros Hm Hk. by apply (rs_bind (fun _ => True)). Qed.

Lemma rs_lift {A} (P : A → Prop) (E : exn → Prop) (o : outcome A) :
  match o with Done a => P a | Raised e => E e end →
  run_spec Tr P E (lift o).
Proof. intros Ho t. exists []. cbn. by rewrite app_nil_r. Qed.

Lemma rs_for_each {A S} (I : S → Prop) (E : exn → Prop) (l : list A)
    (body : S → A → M S) :
  (∀ s x, x ∈ l → I s → run_spec Tr I E (body s x)) →
  ∀ s, I s → run_spec Tr I E (for_each l body s).
Proof.
  induction l as [|x l IH]; intros Hbody s Hs; cbn [for_each].
  - by apply rs_ret.
  - apply (rs_bind I); [apply Hbody; [by left|done]|].
    intros s' Hs'. apply IH; [|done].
    intros s'' y Hy. apply Hbody. by right.
Qed.

Lemma rs_when (E : exn → Prop) (verbose : bool) (line : string) :
  (verbose = true → Tr [EvPrint line]) →
  run_spec Tr (fun _ => True) E (LipiSwapRefactored.when verbose (print line)).
Proof.
  intros Hline. destruct verbose; [by apply rs_emit; auto|by apply rs_ret].
Qed.

Lemma rs_get_soup (E : exn → Prop) (url : string) (verbose : bool) :
  Tr [EvRequest url; EvSleep 1] → Tr [EvRequest url] →
  (verbose = true → ∀ line, Tr [EvPrint line]) →
  run_spec Tr (fun _ => True) E (LipiSwapRefactored.get_soup url verbose).
Proof.
  intros Hok Hfail Hprint t. rewrite refactored_get_soup_run.
  destruct (fetch_failure _) as [msg|]; cbn [fst snd].
  - eexists. split; [done|]. split; [|done].
    apply Tr_app; [done|]. destruct verbose; auto.
  - by eexists.
Qed.

(** *** The loops of the refactored file *)

Variable verbose : bool.
Variable K : string → Prop.
Hypothesis Tr_print : verbose = true → ∀ line, Tr [EvPrint line].
Hypothesis Tr_fetched : ∀ url, K url → Tr [EvRequest url; EvSleep 1].
Hypothesis Tr_failed : ∀ url, K url → Tr [EvRequest url].
Hypothesis K_joined : ∀ href, K (urljoin LipiSwapRefactored.BASE_URL_PATH href).

Lemma rs_extract_links (soup : option node) :
  run_spec Tr (Forall (fun link : string * string => K link.2)) only_href
           (lift (LipiSwapRefactored.extract_links soup)).
Proof.
  apply rs_lift. destruct soup as [doc|]; [|by constructor].
  rewrite refactored_extract_links_page.
  destruct (links_have_href doc); [|done].
  apply Forall_forall. intros [name url] Hin.
  apply list_elem_of_omap in Hin as (row & _ & Hrow).
  destruct (row_link row) as [a|]; [|done]. cbn in Hrow.
  unfold link_pair in Hrow. destruct (tag_attr a "href") as [href|]; [|done].
  cbn in Hrow. injection Hrow as _ <-. apply K_joined.
Qed.

Lemma rs_scrape_table_data (soup : option node)
    (state state_id fy district block : string) :
  run_spec Tr (fun _ => True) only_href
           (lift (LipiSwapRefactored.scrape_table_data soup state state_id fy
                    district block)).
Proof.
  apply rs_lift. destruct soup as [doc|]; [|done].
  change (LipiSwapRefactored.scrape_table_data (Some doc) state state_id fy
            district block)
    with (LipiSwap.scrape_table_data (Some doc) state state_id fy district
            block).
  by rewrite scrape_table_data_page.
Qed.

Lemma rs_block_body (state state_id fy district_name : string)
    (all_data : list record) (link : string * string) :
  K link.2 →
  run_spec Tr (fun _ => True) only_href
           (LipiSwapRefactored.block_body verbose state state_id fy
              district_name all_data link).
Proof.
  destruct link as [block_name block_url]. intros Hk.
  unfold LipiSwapRefactored.block_body.
  apply rs_then; [apply rs_when; auto|].
  apply (rs_bind (fun _ => True)); [apply rs_get_soup; auto|].
  intros [doc|] _.
  - apply (rs_bind (fun _ => True)); [apply rs_scrape_table_data|].
    intros data _. cbv zeta.
    apply rs_then; [apply rs_when; auto|]. by apply rs_ret.
  - apply rs_then; [apply rs_when; auto|]. by apply rs_ret.
Qed.

Lemma rs_district_body (state state_id fy : string)
    (all_data : list record) (link : string * string) :
  K link.2 →
  run_spec Tr (fun _ => True) only_href
           (LipiSwapRefactored.district_body verbose state state_id fy
              all_data link).
Proof.
  destruct link as [district_name district_url]. intros Hk.
  unfold LipiSwapRefactored.district_body.
  apply rs_then; [apply rs_when; auto|].
  apply (rs_bind (fun _ => True)); [apply rs_get_soup; auto|].
  intros [doc|] _.
  - apply (rs_bind (Forall (fun link : string * string => K link.2)));
      [apply rs_extract_links|].
    intros block_links Hlinks.
    apply rs_then; [apply rs_when; auto|].
    apply rs_for_each; [|done]. intros s link Hin _.
    apply rs_block_body. rewrite Forall_forall in Hlinks. by apply Hlinks.
  - apply rs_then; [apply rs_when; auto|]. by apply rs_ret.
Qed.

Lemma rs_state_body (all_data : list record) (state_url : string) :
  K state_url →
  run_spec Tr (fun _ => True) only_href
           (LipiSwapRefactored.state_body verbose all_data state_url).
Proof.
  intros Hk. unfold LipiSwapRefactored.state_body.
  change (LipiSwapRefactored.state_context state_url)
    with (LipiSwap.state_context state_url).
  rewrite state_context_run.
  apply (rs_bind (fun _ => True)); [by apply rs_lift|].
  intros [[state state_id] fy] _.
  apply rs_then; [apply rs_when; auto|].
  apply (rs_bind (fun _ => True)); [apply rs_get_soup; auto|].
  intros [doc|] _.
  - apply (rs_bind (Forall (fun link : string * string => K link.2)));
      [apply rs_extract_links|].
    intros district_links Hlinks.
    apply rs_then; [apply rs_when; auto|].
    apply rs_for_each; [|done]. intros s link Hin _.
    apply rs_district_body. rewrite Forall_forall in Hlinks. by apply Hlinks.
  - apply rs_then; [apply rs_when; auto|]. by apply rs_ret.
Qed.

(** The loops of [main] in the refactored file: what they add to the trace
    is made of console lines (when [verbose]), of requests of state URLs
    and of joined links, each followed by a pause or not; the only
    exception they raise is [KeyError] for [href]. *)
Lemma rs_crawl (state_urls : list string) (all_data : list record) :
  (∀ url, url ∈ state_urls → K url) →
  run_spec Tr (fun _ => True) only_href
           (for_each state_urls (LipiSwapRefactored.state_body verbose)
                     all_data).
Proof.
  intros Hk. apply rs_for_each; [|done].
  intros s url Hin _. apply rs_state_body. by apply Hk.
Qed.
End Trace_rules.

(** ** The two files, line by line *)
Section Default_verbosity.
Context {L : Libs}.

Lemma refactored_get_soup_verbose (url : string) (t : list event) :
  LipiSwapRefactored.get_soup url true t = LipiSwap.get_soup url t.
Proof. by rewrite refactored_get_soup_run, get_soup_run. Qed.

Lemma refactored_crawl_verbose (state_urls : list string)
    (all_data : list record) (t : list event) :
  for_each state_urls (LipiSwapRefactored.state_body true) all_data t
  = for_each state_urls LipiSwap.state_body all_data t.
Proof. reflexivity. Qed.

(** [main] of lipi-swap.py after its loops. *)
Lemma main_run (state_urls : list string) (t : list event) :
  LipiSwap.main state_urls t
  = match for_each state_urls LipiSwap.state_body [] t with
    | (Done all_data, t1) =>
        (Done (), t1 ++ finish true "put/yourr/output/path/here.csv" all_data)
    | (Raised e, t1) => (Raised e, t1)
    end.
Proof.
  unfold LipiSwap.main, mbind, M_bind.
  destruct (for_each state_urls LipiSwap.state_body [] t) as [[data|e] t1];
    [|done].
  destruct data; [done|].
  unfold to_csv, print, emit, finish. by rewrite <- app_assoc.
Qed.

(** [main] of lipi-swap-refactored.py after its loops. *)
Lemma refactored_main_run (state_urls : list string) (verbose : bool)
    (t : list event) :
  LipiSwapRefactored.main state_urls verbose t
  = match for_each state_urls (LipiSwapRefactored.state_body verbose) [] t with
    | (Done all_data, t1) =>
        (Done (),
         t1 ++ finish verbose "put/your/output/path/here.csv" all_data)
    | (Raised e, t1) => (Raised e, t1)
    end.
Proof.
  unfold LipiSwapRefactored.main, mbind, M_bind.
  destruct (for_each state_urls (LipiSwapRefactored.state_body verbose) [] t)
    as [[data|e] t1]; [|done].
  destruct data, verbose; cbn; unfold to_csv, print, emit, finish;
    rewrite <- ?app_assoc, ?app_nil_r; done.
Qed.

(** X8: with [verbose] true, its default, the refactored file does what the
    original does, console lines included: [get_soup] and the loops of
    [main] leave the same trace and return the same, and the two [main]
    differ by the path alone, in the file they write and in the last
    console line. *)
Theorem refactored_verbose_prints_the_same (state_urls : list string)
    (t : list event) :
  (∀ url, LipiSwapRefactored.get_soup url true t = LipiSwap.get_soup url t)
  ∧ match for_each state_urls LipiSwap.state_body [] t with
    | (Done all_data, t1) =>
        for_each state_urls (LipiSwapRefactored.state_body true) [] t
        = (Done all_data, t1)
        ∧ LipiSwap.main state_urls t
          = (Done (),
             t1 ++ finish true "put/yourr/output/path/here.csv" all_data)
        ∧ LipiSwapRefactored.main state_urls true t
          = (Done (),
             t1 ++ finish true "put/your/output/path/here.csv" all_data)
    | (Raised e, t1) =>
        LipiSwap.main state_urls t = (Raised e, t1)
        ∧ LipiSwapRefactored.main state_urls true t = (Raised e, t1)
    end.
Proof.
  split; [intros; apply refactored_get_soup_verbose|].
  rewrite main_run, refactored_main_run.
  change (for_each state_urls (LipiSwapRefactored.state_body true) [] t)
    with (for_each state_urls LipiSwap.state_body [] t).
  by destruct (for_each state_urls LipiSwap.state_body [] t) as [[data|e] t1].
Qed.
End Default_verbosity.

(** ** What a run never does *)

Lemma paced_request (url : string) (t : list event) :
  paced (EvRequest url :: t)
  = match t with
    | EvSleep 1 :: t' => paced t'
    | _ => paced t
    end.
Proof. reflexivity. Qed.

Lemma paced_app (a b : list event) :
  paced a = true → paced b = true → paced (a ++ b) = true.
Proof.
  intros Ha Hb. remember (length a) as n eqn:Hn.
  revert a Ha Hn. induction (lt_wf n) as [n _ IH]. intros a Ha ->.
  assert (Hrest : ∀ a', length a' < length a →
                        paced a' = true → paced (a' ++ b) = true).
  { intros a' Hlen Ha'. by apply (IH (length a')). }
  clear IH. destruct a as [|e a]; [done|].
  destruct e as [url| | |]; try done.
  cbn [app]. rewrite paced_request in Ha |- *.
  destruct a as [|e' a]; cbn [app].
  - destruct b as [|e b]; [done|]. by destruct e as [|[|[|]]| |].
  - destruct e' as [url'|[|[|k]]|line|];
      try (apply (Hrest (_ :: a)); [cbn; lia|done]).
    apply Hrest; [cbn; lia|done].
Qed.

Lemma network_app (a b : list event) : network (a ++ b) = network a ++ network b.
Proof. apply filter_app. Qed.

Lemma requested_app (a b : list event) :
  requested (a ++ b) = requested a ++ requested b.
Proof. apply omap_app. Qed.

Section Never.
Context {L : Libs}.

End Never.

Section Never_main.
Context {L : Libs}.
Variable Tr : list event → Prop.
Hypothesis Tr_nil : Tr [].
Hypothesis Tr_app : ∀ a b, Tr a → Tr b → Tr (a ++ b).
Variable verbose : bool.
Variable K : string → Prop.
Hypothesis Tr_print : verbose = true → ∀ line, Tr [EvPrint line].
Hypothesis Tr_fetched : ∀ url, K url → Tr [EvRequest url; EvSleep 1].
Hypothesis Tr_failed : ∀ url, K url → Tr [EvRequest url].
Hypothesis K_joined : ∀ href, K (urljoin LipiSwapRefactored.BASE_URL_PATH href).
Hypothesis Tr_finish : ∀ path all_data, Tr (finish verbose path all_data).

(** What holds of the loops and of the last step holds of the whole run of
    the refactored [main]. *)
Lemma rs_refactored_main (state_urls : list string) (t : list event) :
  (∀ url, url ∈ state_urls → K url) →
  ∃ added,
    (LipiSwapRefactored.main state_urls verbose t).2 = t ++ added ∧ Tr added.
Proof.
  intros Hk. rewrite refactored_main_run.
  destruct (rs_crawl Tr Tr_nil Tr_app verbose K Tr_print Tr_fetched Tr_failed
              K_joined state_urls [] Hk t) as (added & Ht & Htr & _).
  destruct (for_each _ _ _ t) as [[data|e] t1]; cbn in *; subst t1.
  - eexists. rewrite <- app_assoc. split; [done|]. by apply Tr_app.
  - by exists added.
Qed.

(** And of [main] of lipi-swap.py, which always prints. *)
Lemma rs_original_main (state_urls : list string) (t : list event) :
  verbose = true →
  (∀ url, url ∈ state_urls → K url) →
  ∃ added, (LipiSwap.main state_urls t).2 = t ++ added ∧ Tr added.
Proof.
  intros Hv Hk. rewrite main_run.
  destruct (rs_crawl Tr Tr_nil Tr_app verbose K Tr_print Tr_fetched Tr_failed
              K_joined state_urls [] Hk t) as (added & Ht & Htr & _).
  subst verbose.
  change (for_each state_urls (LipiSwapRefactored.state_body true) [] t)
    with (for_each state_urls LipiSwap.state_body [] t) in Ht.
  destruct (for_each _ _ _ t) as [[data|e] t1]; cbn in *; subst t1.
  - eexists. rewrite <- app_assoc. split; [done|]. by apply Tr_app.
  - by exists added.
Qed.
End Never_main.

Lemma network_finish (verbose : bool) (path : string)
    (all_data : list record) :
  network (finish verbose path all_data) = [].
Proof. by destruct all_data, verbose. Qed.

Lemma requested_finish (verbose : bool) (path : string)
    (all_data : list record) :
  requested (finish verbose path all_data) = [].
Proof. by destruct all_data, verbose. Qed.

Section Never_more.
Context {L : Libs}.

(** X5: in a run of [main], of either file, the requests and pauses come in
    step: every pause is one of 1 second and directly follows a request
    (console lines apart); no pause comes before the first request or after
    another pause, so there are never more pauses than requests. *)
Theorem main_pauses_follow_requests (state_urls : list string)
    (verbose : bool) (t : list event) :
  (∃ added,
     (LipiSwap.main state_urls t).2 = t ++ added
     ∧ paced (network added) = true)
  ∧ (∃ added,
       (LipiSwapRefactored.main state_urls verbose t).2 = t ++ added
       ∧ paced (network added) = true).
Proof.
  assert (Happ : ∀ a b, paced (network a) = true → paced (network b) = true →
                        paced (network (a ++ b)) = true).
  { intros a b Ha Hb. rewrite network_app. by apply paced_app. }
  split.
  - apply (rs_original_main (fun a => paced (network a) = true) eq_refl Happ
             true (fun _ => True)); try done.
    intros. by rewrite network_finish.
  - apply (rs_refactored_main (fun a => paced (network a) = true) eq_refl Happ
             verbose (fun _ => True)); try done.
    intros. by rewrite network_finish.
Qed.


(** X7: with [verbose] false the refactored file prints nothing: neither
    [get_soup] nor [main] adds a console line to the trace, whatever
    happens on the network. *)
Theorem refactored_quiet_prints_nothing (state_urls : list string)
    (url : string) (t : list event) :
  (∃ added,
     (LipiSwapRefactored.get_soup url false t).2 = t ++ added
     ∧ Forall (fun e => ¬ is_print e) added)
  ∧ (∃ added,
       (LipiSwapRefactored.main state_urls false t).2 = t ++ added
       ∧ Forall (fun e => ¬ is_print e) added).
Proof.
  split.
  - rewrite refactored_get_soup_run.
    destruct (fetch_failure _); eexists; (split; [done|]);
      repeat (apply Forall_cons; split; [by intros []|]); constructor.
  - apply (rs_refactored_main (Forall (fun e => ¬ is_print e))
             (Forall_nil_2 _)
             (fun a b Ha Hb => proj2 (Forall_app _ a b) (conj Ha Hb))
             false (fun _ => True)); try done.
    + intros. repeat (apply Forall_cons; split; [by intros []|]). constructor.
    + intros. repeat (apply Forall_cons; split; [by intros []|]). constructor.
    + intros path [|r data]; [constructor|].
      cbn. repeat (apply Forall_cons; split; [by intros []|]). constructor.
Qed.
End Never_more.

(** ** How runs compose *)
Section Composition.
Context {L : Libs}.

Lemma for_each_app {A S} (l1 l2 : list A) (body : S → A → M S) (s : S)
    (t : list event) :
  for_each (l1 ++ l2) body s t
  = match for_each l1 body s t with
    | (Done s1, t1) => for_each l2 body s1 t1
    | (Raised e, t1) => (Raised e, t1)
    end.
Proof.
  revert s t. induction l1 as [|x l1 IH]; intros s t; [done|].
  cbn [app for_each]. unfold mbind, M_bind.
  destruct (body s x t) as [[s'|e] t']; [apply IH|done].
Qed.

(** The loops of [main] from a collection that is not empty. *)
Lemma crawl_frame (state_urls : list string) (all_data : list record)
    (t : list event) :
  for_each state_urls LipiSwap.state_body all_data t
  = match for_each state_urls LipiSwap.state_body [] t with
    | (Done new_data, t') => (Done (all_data ++ new_data), t')
    | (Raised e, t') => (Raised e, t')
    end.
Proof.
  rewrite !(for_each_collect record_of_reached _ _ state_rows)
    by (intros; apply state_body_rows).
  by destruct (collect state_urls state_rows t) as [[rs|e] t'].
Qed.

(** X4: the loops of [main] only append.  Started from a collection, they
    make the requests and return the new records that they would from the
    empty collection, behind the records they were given; and a run over
    two lists of state URLs in a row collects what the run over the first
    collects, followed by what the run over the second collects from the
    trace where the first ended. *)
Theorem crawl_appends_and_composes (urls1 urls2 : list string)
    (all_data : list record) (t : list event) :
  for_each urls1 LipiSwap.state_body all_data t
  = match for_each urls1 LipiSwap.state_body [] t with
    | (Done new_data, t') => (Done (all_data ++ new_data), t')
    | (Raised e, t') => (Raised e, t')
    end
  ∧ for_each (urls1 ++ urls2) LipiSwap.state_body [] t
    = match for_each urls1 LipiSwap.state_body [] t with
      | (Done data1, t1) =>
          match for_each urls2 LipiSwap.state_body [] t1 with
          | (Done data2, t2) => (Done (data1 ++ data2), t2)
          | (Raised e, t2) => (Raised e, t2)
          end
      | (Raised e, t1) => (Raised e, t1)
      end.
Proof.
  split; [apply crawl_frame|].
  rewrite for_each_app.
  destruct (for_each urls1 LipiSwap.state_body [] t) as [[data1|e] t1];
    [|done].
  apply crawl_frame.
Qed.

(** X3: one hyperlink without [href] on a state page loses the whole run.
    If the states before it were processed and gave the collection
    [all_data], and the page of the next state is fetched and has such a
    hyperlink among those that [extract_links] reads, then [main] raises
    [KeyError] right after the pause for that page: the states after it
    are never requested and no file is written, whatever was collected. *)
Theorem anchor_without_href_aborts_run (before rest : list string)
    (state_url : string) (all_data : list record) (t t1 : list event)
    (r : Response) :
  for_each before LipiSwap.state_body [] t = (Done all_data, t1) →
  requests_get (quiet t1) state_url = inr r →
  http_error r = None →
  links_have_href (html_parser (text r)) = false →
  LipiSwap.main (before ++ state_url :: rest) t
  = (Raised (KeyError "href"),
     t1 ++ [EvPrint ("Processing state: " +:+ state_of state_url);
            EvRequest state_url; EvSleep 1]).
Proof.
  intros Hbefore Hget Hok Hhref.
  rewrite main_run, for_each_app, Hbefore. cbn [for_each].
  unfold mbind at 1, M_bind at 1.
  assert (Hstate : LipiSwap.state_body all_data state_url t1
                   = (Raised (KeyError "href"),
                      t1 ++ [EvPrint ("Processing state: "
                                      +:+ state_of state_url);
                             EvRequest state_url; EvSleep 1])).
  { unfold LipiSwap.state_body, mbind, M_bind, lift, print, emit.
    rewrite state_context_run, get_soup_run, quiet_print, Hget.
    cbn [fetch_failure]. rewrite Hok. cbn [page_of].
    rewrite extract_links_page, Hhref. by rewrite <- app_assoc. }
  by rewrite Hstate.
Qed.

(** X11: when every fetch fails, [main] requests each state URL once, in
    the order of the list, pauses never, writes no file and ends normally
    on the line that no data was collected. *)
Theorem main_when_every_fetch_fails (state_urls : list string)
    (t : list event) :
  (∀ t' url, fetch_failure (requests_get t' url) ≠ None) →
  ∃ added,
    LipiSwap.main state_urls t = (Done (), t ++ added)
    ∧ network added = map EvRequest state_urls
    ∧ filter (fun e => is_to_csv e) added = []
    ∧ last added = Some (EvPrint "No data collected.").
Proof.
  intros Hdown.
  assert (Hcrawl : ∀ urls t0, ∃ added,
            for_each urls LipiSwap.state_body [] t0 = (Done [], t0 ++ added)
            ∧ network added = map EvRequest urls
            ∧ filter (fun e => is_to_csv e) added = []).
  { induction urls as [|url urls IH]; intros t0.
    - exists []. by rewrite app_nil_r.
    - destruct (fetch_failure (requests_get (quiet t0) url)) as [msg|] eqn:Hf;
        [|by destruct (Hdown (quiet t0) url)].
      cbn [for_each]. unfold mbind, M_bind.
      rewrite (state_body_failure url msg [] t0 Hf).
      destruct (IH (t0 ++ [EvPrint ("Processing state: " +:+ state_of url);
                           EvRequest url;
                           EvPrint (fetch_error_line url msg);
                           EvPrint ("Failed to fetch state page for "
                                    +:+ state_of url +:+ ". Skipping.")]))
        as (added & Hrun & Hnet & Hcsv).
      eexists. rewrite Hrun, <- app_assoc. split; [done|].
      rewrite network_app, Hnet. split; [done|].
      by rewrite filter_app, Hcsv. }
  destruct (Hcrawl state_urls t) as (added & Hrun & Hnet & Hcsv).
  exists (added ++ [EvPrint "No data collected."]).
  rewrite main_run, Hrun, <- app_assoc. split; [done|].
  rewrite network_app, Hnet, app_nil_r. split; [done|].
  rewrite filter_app, Hcsv. split; [done|]. apply last_snoc.
Qed.
End Composition.

Lemma anchor_without_href_aborts_run_witness :
  (for_each [Samples.state_url]
            (LipiSwap.state_body (L := Samples.libs_with_anchor)) [] []
   = (Done Samples.crawl_data, Samples.crawl_trace)
   ∧ @requests_get Samples.libs_with_anchor (quiet Samples.crawl_trace)
       Samples.anchor_url
     = inr {| http_error := None; text := "anchors" |}
   ∧ links_have_href
       (@html_parser Samples.libs_with_anchor "anchors") = false)
  ∧ LipiSwap.main (L := Samples.libs_with_anchor)
      ([Samples.state_url] ++ Samples.anchor_url :: ["http://s/never"]) []
    = (Raised (KeyError "href"),
       Samples.crawl_trace
       ++ [EvPrint "Processing state: A"; EvRequest Samples.anchor_url;
           EvSleep 1]).
Proof.
  assert (H1 : for_each [Samples.state_url]
                 (LipiSwap.state_body (L := Samples.libs_with_anchor)) [] []
               = (Done Samples.crawl_data, Samples.crawl_trace))
    by (by vm_compute).
  assert (H2 : @requests_get Samples.libs_with_anchor
                 (quiet Samples.crawl_trace) Samples.anchor_url
               = inr {| http_error := None; text := "anchors" |})
    by (by vm_compute).
  assert (H3 : links_have_href
                 (@html_parser Samples.libs_with_anchor "anchors") = false)
    by (by vm_compute).
  split; [by repeat split|].
  exact (anchor_without_href_aborts_run (L := Samples.libs_with_anchor)
           [Samples.state_url] ["http://s/never"] Samples.anchor_url
           Samples.crawl_data [] Samples.crawl_trace
           {| http_error := None; text := "anchors" |} H1 H2 eq_refl H3).
Defined.

Lemma main_when_every_fetch_fails_witness :
  (∀ t' url,
     fetch_failure (@requests_get Samples.libs_offline t' url) ≠ None)
  ∧ ∃ added,
      LipiSwap.main (L := Samples.libs_offline)
        [Samples.state_url; Samples.anchor_url] []
      = (Done (), [] ++ added)
      ∧ network added
        = map EvRequest [Samples.state_url; Samples.anchor_url]
      ∧ filter (fun e => is_to_csv e) added = []
      ∧ last added = Some (EvPrint "No data collected.").
Proof.
  assert (H : ∀ t' url,
            fetch_failure (@requests_get Samples.libs_offline t' url) ≠ None)
    by (by intros t' url).
  split; [exact H|].
  exact (main_when_every_fetch_fails (L := Samples.libs_offline)
           [Samples.state_url; Samples.anchor_url] [] H).
Defined.

(** ** Bounds of the extractors *)
Section Bounds.
Context {L : Libs}.

(** X9: [scrape_table_data] never raises, in either file: the guard on the
    number of cells keeps [cells[1]] and the twelve reads of the months in
    range.  It returns at most one record per post-header row, and each
    record has exactly the eighteen keys, in their order, with the context
    that the caller passed. *)
Theorem scrape_table_data_never_raises (soup : option node)
    (state state_id fy district block : string) :
  ∃ data,
    LipiSwap.scrape_table_data soup state state_id fy district block
    = Done data
    ∧ LipiSwapRefactored.scrape_table_data soup state state_id fy district
        block = Done data
    ∧ length data ≤ match soup with
                    | Some doc => length (data_rows doc)
                    | None => 0
                    end
    ∧ Forall (fun r =>
                map fst r = csv_columns
                ∧ dict_get "State" r = Some state
                ∧ dict_get "State ID" r = Some state_id
                ∧ dict_get "FY" r = Some fy
                ∧ dict_get "District" r = Some district
                ∧ dict_get "Block" r = Some block) data.
Proof.
  change (LipiSwapRefactored.scrape_table_data soup state state_id fy district
            block)
    with (LipiSwap.scrape_table_data soup state state_id fy district block).
  destruct soup as [doc|]; [|exists []; by repeat split].
  rewrite scrape_table_data_page. eexists. split; [done|]. split; [done|].
  split.
  - rewrite length_map. apply length_filter.
  - apply Forall_forall. intros r Hr%list_elem_of_In.
    apply in_map_iff in Hr as (row & <- & Hrow).
    apply list_elem_of_In, list_elem_of_filter in Hrow as [Hlen _].
    split; [by apply leaf_record_full|done].
Qed.

(** X10: the first four rows of the table are never read.  On a page whose
    table [t1] has four rows or fewer, both extractors of both files return
    the empty list, even if one of those rows holds a hyperlink without
    [href] or fourteen cells. *)
Theorem header_rows_are_never_read (doc table : node)
    (state state_id fy district block : string) :
  find_by_id "table" "t1" doc = Some table →
  length (find_all "tr" table) ≤ 4 →
  LipiSwap.extract_links (Some doc) = Done []
  ∧ LipiSwapRefactored.extract_links (Some doc) = Done []
  ∧ LipiSwap.scrape_table_data (Some doc) state state_id fy district block
    = Done []
  ∧ LipiSwapRefactored.scrape_table_data (Some doc) state state_id fy
      district block = Done [].
Proof.
  intros Htable Hrows.
  unfold LipiSwap.extract_links, LipiSwapRefactored.extract_links,
    LipiSwap.scrape_table_data, LipiSwapRefactored.scrape_table_data.
  rewrite Htable. cbv zeta. by rewrite drop_ge by done.
Qed.
End Bounds.

Lemma header_rows_are_never_read_witness :
  (find_by_id "table" "t1" Samples.header_only_page
   = Some Samples.header_only_table
   ∧ length (find_all "tr" Samples.header_only_table) ≤ 4)
  ∧ LipiSwap.extract_links (L := Samples.libs) (Some Samples.header_only_page)
    = Done []
  ∧ LipiSwapRefactored.extract_links (L := Samples.libs)
      (Some Samples.header_only_page) = Done []
  ∧ LipiSwap.scrape_table_data (L := Samples.libs)
      (Some Samples.header_only_page) "S" "09" "2023-24" "D" "B" = Done []
  ∧ LipiSwapRefactored.scrape_table_data (L := Samples.libs)
      (Some Samples.header_only_page) "S" "09" "2023-24" "D" "B" = Done [].
Proof.
  assert (H1 : find_by_id "table" "t1" Samples.header_only_page
               = Some Samples.header_only_table) by (by vm_compute).
  assert (H2 : length (find_all "tr" Samples.header_only_table) ≤ 4)
    by (vm_compute; lia).
  split; [by split|].
  exact (header_rows_are_never_read (L := Samples.libs)
           Samples.header_only_page Samples.header_only_table
           "S" "09" "2023-24" "D" "B" H1 H2).
Defined.

(** ** The file *)
Section One_file.
Context {L : Libs}.

Lemma crawl_writes_nothing (state_urls : list string) (verbose : bool)
    (t : list event) :
  ∃ added,
    (for_each state_urls (LipiSwapRefactored.state_body verbose) [] t).2
    = t ++ added
    ∧ filter (fun e => is_to_csv e) added = [].
Proof.
  assert (Happ : ∀ a b : list event,
            filter (fun e => is_to_csv e) a = [] →
            filter (fun e => is_to_csv e) b = [] →
            filter (fun e => is_to_csv e) (a ++ b) = []).
  { intros a b Ha Hb. by rewrite filter_app, Ha, Hb. }
  destruct (rs_crawl (fun a => filter (fun e => is_to_csv e) a = []) eq_refl
              Happ verbose (fun _ => True)
              (fun _ _ => eq_refl) (fun _ _ => eq_refl) (fun _ _ => eq_refl)
              (fun _ => I) state_urls [] (fun _ _ => I) t)
    as (added & Ht & Hcsv & _).
  by exists added.
Qed.

(** X12: a run of [main], of either file, writes at most one file, after
    all its requests, and never an empty one: the file that is written has
    at least one row.  It is written without index column and in utf-8. *)
Theorem main_writes_at_most_one_file (state_urls : list string)
    (verbose : bool) (t : list event) :
  (∃ added,
     (LipiSwap.main state_urls t).2 = t ++ added
     ∧ (filter (fun e => is_to_csv e) added = []
        ∨ ∃ before cols rows line,
            rows ≠ []
            ∧ filter (fun e => is_to_csv e) before = []
            ∧ added
              = before
                ++ [EvToCsv "put/yourr/output/path/here.csv" cols rows false
                            "utf-8";
                    EvPrint line]))
  ∧ (∃ added,
       (LipiSwapRefactored.main state_urls verbose t).2 = t ++ added
       ∧ (filter (fun e => is_to_csv e) added = []
          ∨ ∃ before cols rows after,
              rows ≠ []
              ∧ filter (fun e => is_to_csv e) before = []
              ∧ Forall (fun e => is_print e) after
              ∧ added
                = before
                  ++ EvToCsv "put/your/output/path/here.csv" cols rows false
                             "utf-8"
                     :: after)).
Proof.
  split.
  - rewrite main_run.
    destruct (crawl_writes_nothing state_urls true t) as (added & Ht & Hcsv).
    change (for_each state_urls (LipiSwapRefactored.state_body true) [] t)
      with (for_each state_urls LipiSwap.state_body [] t) in Ht.
    destruct (for_each _ _ _ t) as [[[|r data]|e] t1]; cbn in Ht; subst t1.
    + eexists. rewrite <- app_assoc. split; [done|]. left.
      by rewrite filter_app, Hcsv.
    + eexists. rewrite <- app_assoc. split; [done|]. right.
      refine (ex_intro _ added (ex_intro _ _ (ex_intro _ _ (ex_intro _ _
                (conj _ (conj Hcsv eq_refl)))))).
      done.
    + exists added. by split; [|left].
  - rewrite refactored_main_run.
    destruct (crawl_writes_nothing state_urls verbose t)
      as (added & Ht & Hcsv).
    destruct (for_each _ _ _ t) as [[[|r data]|e] t1]; cbn in Ht; subst t1.
    + eexists. rewrite <- app_assoc. split; [done|]. left.
      rewrite filter_app, Hcsv. by destruct verbose.
    + eexists. rewrite <- app_assoc. split; [done|]. right.
      refine (ex_intro _ added (ex_intro _ _ (ex_intro _ _ (ex_intro _ _
                (conj _ (conj Hcsv (conj _ eq_refl))))))); [done|].
      destruct verbose; by repeat constructor.
    + exists added. by split; [|left].
Qed.
End One_file.
